(** * PsychoAnalyze: conversation store, analysis requestor and HTTP handlers

    A shallow embedding of the server side of the repository:
    - [shared/schema.ts]: the tables and the insert schemas derived from them;
    - [server/storage.ts]: the [IStorage] interface and [MemStorage];
    - [server/services/openai.ts]: [analyzeConversation];
    - [server/routes.ts]: the request handlers.

    JavaScript values are embedded as an inductive type; what the code
    obtains from its runtime and its libraries (the JSON parser, the
    rendering of numbers, [parseFloat], the value of a numeric literal) is
    taken as a parameter of the development; random identifiers, the clock
    and the remote model are inputs of the operations that consult them. *)

From Stdlib Require Import ZArith QArith String Ascii List Bool Lia.
From Stdlib Require Import Sorted Permutation DecimalString.
Import ListNotations.

Local Open Scope list_scope.
Local Open Scope string_scope.

Set Warnings "-register-all".

(** ** Outcomes of code that may throw *)

Inductive outcome (A : Type) : Type :=
| Ok (a : A)
| Throws (message : string).

Arguments Ok {A} a.
Arguments Throws {A} message.

Definition bind {A B : Type} (m : outcome A) (k : A -> outcome B) : outcome B :=
  match m with
  | Ok a => k a
  | Throws e => Throws e
  end.

Notation "'let*' x ':=' m 'in' k" := (bind m (fun x => k))
  (at level 10, x name, m at level 100, k at level 200).

(** ** Insertion-ordered string-keyed tables

    Both the own properties of a JavaScript object and the entries of a
    [Map] are kept in insertion order: writing an existing key replaces its
    value where it stands, writing a new key appends it. *)

Section Assoc.
Context {V : Type}.

Fixpoint assoc_get (k : string) (m : list (string * V)) : option V :=
  match m with
  | [] => None
  | (k', v) :: m' => if String.eqb k k' then Some v else assoc_get k m'
  end.

Fixpoint assoc_set (k : string) (v : V) (m : list (string * V)) : list (string * V) :=
  match m with
  | [] => [(k, v)]
  | (k', v') :: m' =>
      if String.eqb k k' then (k, v) :: m' else (k', v') :: assoc_set k v m'
  end.

Definition has_key (k : string) (m : list (string * V)) : bool :=
  match assoc_get k m with Some _ => true | None => false end.

Definition assoc_values (m : list (string * V)) : list V := map snd m.
End Assoc.

(** ** JavaScript values *)

Module JS.

(** A number is NaN, an infinity, or a finite double, written as the
    rational it denotes.  The program only compares numbers and never
    computes with them, so no rounding ever takes place; the sign of zero is
    not tracked (no operation below tells the two zeros apart). *)
Inductive number : Type :=
| NaN
| NegInf
| PosInf
| Fin (q : Q).

(** An array carries its elements and, as every JavaScript object, whatever
    named properties have been assigned to it.  [props] hold the own
    properties in the order in which the engine enumerates them. *)
Inductive value : Type :=
| VUndef
| VNull
| VBool (b : bool)
| VNum (n : number)
| VStr (s : string)
| VArr (items : list value) (props : list (string * value))
| VObj (props : list (string * value)).

Definition num (q : Q) : value := VNum (Fin q).

(** ToBoolean. *)
Definition truthy (v : value) : bool :=
  match v with
  | VUndef | VNull => false
  | VBool b => b
  | VNum NaN => false
  | VNum (Fin q) => negb (Qeq_bool q 0)
  | VNum _ => true
  | VStr s => negb (String.eqb s EmptyString)
  | VArr _ _ | VObj _ => true
  end.

(** [a || b] *)
Definition or_else (a b : value) : value := if truthy a then a else b.

Definition Math_min (a b : number) : number :=
  match a, b with
  | NaN, _ | _, NaN => NaN
  | NegInf, _ | _, NegInf => NegInf
  | PosInf, y => y
  | x, PosInf => x
  | Fin x, Fin y => if Qle_bool x y then Fin x else Fin y
  end.

Definition Math_max (a b : number) : number :=
  match a, b with
  | NaN, _ | _, NaN => NaN
  | PosInf, _ | _, PosInf => PosInf
  | NegInf, y => y
  | x, NegInf => x
  | Fin x, Fin y => if Qle_bool x y then Fin y else Fin x
  end.

(** What the engine says when it fails.  The wording is V8's; nothing below
    depends on it. *)
Definition TypeError_to_primitive : string :=
  "Cannot convert object to primitive value".
Definition TypeError_read (k : string) : string :=
  "Cannot read properties of null (reading '" ++ k ++ "')".
Definition TypeError_set (k : string) : string :=
  "Cannot set properties of null (setting '" ++ k ++ "')".
Definition TypeError_create (k : string) : string :=
  "Cannot create property '" ++ k ++ "' on a primitive value".

(** *** Numeric string literals

    [StringToNumber] accepts the grammar [StringNumericLiteral] of the
    language: optional white space around an optionally signed decimal
    literal, [Infinity], or an unsigned binary, octal or hexadecimal
    integer.  Strings are sequences of 8-bit code units here. *)

Definition code (c : ascii) : nat := nat_of_ascii c.

Definition is_white_space (c : ascii) : bool :=
  let n := code c in
  ((9 <=? n) && (n <=? 13) || (n =? 32) || (n =? 160))%nat.

Definition between (lo hi : nat) (c : ascii) : bool :=
  ((lo <=? code c) && (code c <=? hi))%nat.

Definition is_digit : ascii -> bool := between 48 57.
Definition is_octal_digit : ascii -> bool := between 48 55.
Definition is_binary_digit : ascii -> bool := between 48 49.
Definition is_hex_digit (c : ascii) : bool :=
  is_digit c || between 65 70 c || between 97 102 c.

Definition is_char (n : nat) (c : ascii) : bool := (code c =? n)%nat.

Fixpoint skip (p : ascii -> bool) (l : list ascii) : list ascii :=
  match l with
  | c :: l' => if p c then skip p l' else l
  | [] => []
  end.

Definition trim (l : list ascii) : list ascii :=
  rev (skip is_white_space (rev (skip is_white_space l))).

Definition starts_with (p : ascii -> bool) (l : list ascii) : bool :=
  match l with c :: _ => p c | [] => false end.

Definition is_nil {A : Type} (l : list A) : bool :=
  match l with [] => true | _ => false end.

(** One or more characters of class [p], and nothing else. *)
Definition all_of (p : ascii -> bool) (l : list ascii) : bool :=
  starts_with p l && is_nil (skip p l).

Definition skip_sign (l : list ascii) : list ascii :=
  match l with
  | c :: l' => if is_char 43 c || is_char 45 c then l' else l
  | [] => []
  end.

(** An optional exponent part, then the end of the literal. *)
Definition is_exponent_opt (l : list ascii) : bool :=
  match l with
  | [] => true
  | c :: l' =>
      (is_char 101 c || is_char 69 c) && all_of is_digit (skip_sign l')
  end.

Definition is_unsigned_decimal (l : list ascii) : bool :=
  if String.eqb (string_of_list_ascii l) "Infinity" then true
  else
    match l with
    | c :: r =>
        if is_char 46 c then
          starts_with is_digit r && is_exponent_opt (skip is_digit r)
        else
          is_digit c &&
          match skip is_digit r with
          | d :: r' =>
              if is_char 46 d then is_exponent_opt (skip is_digit r')
              else is_exponent_opt (d :: r')
          | [] => true
          end
    | [] => false
    end.

Definition is_non_decimal_integer (l : list ascii) : bool :=
  match l with
  | z :: x :: r =>
      is_char 48 z &&
      (((is_char 120 x || is_char 88 x) && all_of is_hex_digit r)
       || ((is_char 111 x || is_char 79 x) && all_of is_octal_digit r)
       || ((is_char 98 x || is_char 66 x) && all_of is_binary_digit r))
  | _ => false
  end.

Definition is_numeric_literal (l : list ascii) : bool :=
  is_non_decimal_integer l || is_unsigned_decimal (skip_sign l).

(** What the program obtains from the engine and is not spelled out here. *)
Class Runtime : Type := {
  (** the double a well-formed numeric literal (already trimmed) denotes *)
  StringNumericValue : string -> number;
  (** [Number.prototype.toString], radix ten, of a finite or non-finite number *)
  Number_toString : number -> string;
  (** [parseFloat] of a string *)
  parseFloat : string -> number;
  (** [JSON.parse]: the value read, or the message of the [SyntaxError];
      an array it returns has no named property, and no value it returns
      contains [undefined] *)
  JSON_parse : string -> outcome value
}.

Section WithRuntime.
Context {rt : Runtime}.

Definition StringToNumber (s : string) : number :=
  let t := trim (list_ascii_of_string s) in
  if is_nil t then Fin 0
  else if is_numeric_literal t then StringNumericValue (string_of_list_ascii t)
  else NaN.

(** ToString.  An object is first converted to a primitive through its
    [toString] method; an own property of that name read from JSON is
    never callable, in which case the conversion throws.  Arrays print
    their elements separated by commas, through [join]. *)
Fixpoint ToString (v : value) : outcome string :=
  match v with
  | VUndef => Ok "undefined"
  | VNull => Ok "null"
  | VBool true => Ok "true"
  | VBool false => Ok "false"
  | VNum n => Ok (Number_toString n)
  | VStr s => Ok s
  | VArr items props =>
      if has_key "toString" props then Throws TypeError_to_primitive
      else if has_key "join" props then Ok "[object Array]"
      else
        let element (x : value) : outcome string :=
          match x with
          | VUndef | VNull => Ok EmptyString
          | _ => ToString x
          end in
        (fix join (l : list value) : outcome string :=
           match l with
           | [] => Ok EmptyString
           | [x] => element x
           | x :: l' =>
               let* a := element x in
               let* b := join l' in
               Ok (a ++ "," ++ b)
           end) items
  | VObj props =>
      if has_key "toString" props then Throws TypeError_to_primitive
      else Ok "[object Object]"
  end.

Definition ToNumber (v : value) : outcome number :=
  match v with
  | VUndef => Ok NaN
  | VNull => Ok (Fin 0)
  | VBool true => Ok (Fin 1)
  | VBool false => Ok (Fin 0)
  | VNum n => Ok n
  | VStr s => Ok (StringToNumber s)
  | VArr _ _ | VObj _ =>
      let* s := ToString v in Ok (StringToNumber s)
  end.

(** [x.toString()] *)
Definition toString_method (v : value) : outcome string :=
  match v with
  | VUndef | VNull => Throws (TypeError_read "toString")
  | _ => ToString v
  end.

(** *** JSON.stringify *)

Definition double_quote : ascii := ascii_of_nat 34.
Definition backslash : ascii := ascii_of_nat 92.

Definition hex_digit (n : nat) : ascii :=
  ascii_of_nat (if (n <? 10)%nat then 48 + n else 87 + n).

Definition escaped (c : ascii) : string := String backslash (String c EmptyString).

Definition escape_char (c : ascii) : string :=
  let n := code c in
  if (n =? 8)%nat then escaped "b"
  else if (n =? 9)%nat then escaped "t"
  else if (n =? 10)%nat then escaped "n"
  else if (n =? 12)%nat then escaped "f"
  else if (n =? 13)%nat then escaped "r"
  else if (n =? 34)%nat || (n =? 92)%nat then escaped c
  else if (n <? 32)%nat then
    String backslash
      (String "u" (String "0" (String "0"
         (String (hex_digit (n / 16)) (String (hex_digit (n mod 16)) EmptyString)))))
  else String c EmptyString.

Definition QuoteJSONString (s : string) : string :=
  String double_quote
    (String.concat EmptyString (map escape_char (list_ascii_of_string s))
     ++ String double_quote EmptyString).

(** [None] stands for the result [undefined].  A non-finite number prints
    as [null], and so does an [undefined] element of an array; an
    [undefined] member of an object is left out. *)
Fixpoint JSON_stringify (v : value) : option string :=
  match v with
  | VUndef => None
  | VNull => Some "null"
  | VBool true => Some "true"
  | VBool false => Some "false"
  | VNum (Fin q) => Some (Number_toString (Fin q))
  | VNum _ => Some "null"
  | VStr s => Some (QuoteJSONString s)
  | VArr items _ =>
      let element (x : value) : string :=
        match JSON_stringify x with Some t => t | None => "null" end in
      Some ("[" ++ String.concat "," (map element items) ++ "]")
  | VObj props =>
      Some ("{" ++ String.concat ","
              ((fix members (ps : list (string * value)) : list string :=
                  match ps with
                  | [] => []
                  | (k, x) :: ps' =>
                      match JSON_stringify x with
                      | Some t => (QuoteJSONString k ++ ":" ++ t) :: members ps'
                      | None => members ps'
                      end
                  end) props) ++ "}")
  end.

End WithRuntime.

(** *** Properties

    The program reads and writes a handful of fixed names, none of which is
    an array index, [length], or inherited from a prototype. *)

Definition Get (v : value) (k : string) : outcome value :=
  match v with
  | VUndef | VNull => Throws (TypeError_read k)
  | VObj props | VArr _ props =>
      Ok (match assoc_get k props with Some x => x | None => VUndef end)
  | VBool _ | VNum _ | VStr _ => Ok VUndef
  end.

(** Assignment in strict code (every module of the server is one). *)
Definition Put (v : value) (k : string) (x : value) : outcome value :=
  match v with
  | VUndef | VNull => Throws (TypeError_set k)
  | VObj props => Ok (VObj (assoc_set k x props))
  | VArr items props => Ok (VArr items (assoc_set k x props))
  | VBool _ | VNum _ | VStr _ => Throws (TypeError_create k)
  end.

End JS.

(** ** shared/schema.ts *)

Module InsertUser.
Record t : Type := { username : string; password : string }.
End InsertUser.

Module User.
Record t : Type := { id : string; username : string; password : string }.
End User.

(** What [insertConversationSchema] lets through.  A column with a default
    is optional in the insert schema, and a column that may be null accepts
    [null] as well; [None] stands for a field that is absent. *)
Module InsertConversation.
Record t : Type := {
  title : option (option string);
  content : string;
  analysisType : option string;
  model : option string;
  temperature : option string;
  maxTokens : option JS.number
}.
End InsertConversation.

Module Conversation.
Record t : Type := {
  title : option (option string);
  content : string;
  analysisType : option string;
  model : option string;
  temperature : option string;
  maxTokens : option JS.number;
  id : string;
  createdAt : Z
}.
End Conversation.

Module InsertAnalysis.
Record t : Type := {
  conversationId : string;
  emotionalTone : JS.value;
  powerDynamics : JS.value;
  communicationPatterns : JS.value;
  relationshipInsights : JS.value;
  recommendations : JS.value;
  emotionalIntensity : string;
  resolutionPotential : string;
  communicationQuality : string;
  powerBalance : string;
  rawAnalysis : JS.value
}.
End InsertAnalysis.

Module Analysis.
Record t : Type := {
  conversationId : string;
  emotionalTone : JS.value;
  powerDynamics : JS.value;
  communicationPatterns : JS.value;
  relationshipInsights : JS.value;
  recommendations : JS.value;
  emotionalIntensity : string;
  resolutionPotential : string;
  communicationQuality : string;
  powerBalance : string;
  rawAnalysis : JS.value;
  id : string;
  createdAt : Z
}.
End Analysis.

(** *** The insert schema of the [conversations] table

    [createInsertSchema] derives one validator per column from the column's
    type: [text] is a string, [integer] is a number that is an integer
    within the range of a 32-bit signed integer.  A column that is not
    declared [notNull] also accepts [null]; a column that is nullable or has
    a default may be left out.  The object validator reports the issues of
    all fields and drops the keys it does not know. *)

Module Zod.

Inductive ZodIssueCode : Type :=
| invalid_type (expected : string)
| too_small
| too_big.

Record ZodIssue : Type := { path : list string; code : ZodIssueCode }.

(** The text of [ZodError.message] for a list of issues. *)
Class Messages : Type := { ZodError_message : list ZodIssue -> string }.

Definition checked (A : Type) : Type := (list ZodIssue + A)%type.

Definition issues {A : Type} (r : checked A) : list ZodIssue :=
  match r with inl i => i | inr _ => [] end.

Definition string_ (p : string) (v : JS.value) : checked string :=
  match v with
  | JS.VStr s => inr s
  | _ => inl [ {| path := [p]; code := invalid_type "string" |} ]
  end.

Definition is_integer (q : Q) : bool := (Qnum q mod Zpos (Qden q) =? 0)%Z.

Definition INT32_MIN : Q := (-2147483648)%Q.
Definition INT32_MAX : Q := 2147483647%Q.

Definition int32 (p : string) (v : JS.value) : checked JS.number :=
  match v with
  | JS.VNum (JS.Fin q) =>
      let small := if Qle_bool INT32_MIN q then [] else [ {| path := [p]; code := too_small |} ] in
      let big := if Qle_bool q INT32_MAX then [] else [ {| path := [p]; code := too_big |} ] in
      let int := if is_integer q then [] else [ {| path := [p]; code := invalid_type "integer" |} ] in
      match (small ++ big ++ int)%list with
      | [] => inr (JS.Fin q)
      | l => inl l
      end
  | JS.VNum JS.PosInf => inl [ {| path := [p]; code := too_big |}; {| path := [p]; code := invalid_type "integer" |} ]
  | JS.VNum JS.NegInf => inl [ {| path := [p]; code := too_small |}; {| path := [p]; code := invalid_type "integer" |} ]
  | _ => inl [ {| path := [p]; code := invalid_type "number" |} ]
  end.

Definition nullable {A : Type} (f : JS.value -> checked A) (v : JS.value) : checked (option A) :=
  match v with
  | JS.VNull => inr None
  | _ => match f v with inl i => inl i | inr a => inr (Some a) end
  end.

Definition optional {A : Type} (f : JS.value -> checked A) (v : JS.value) : checked (option A) :=
  match v with
  | JS.VUndef => inr None
  | _ => match f v with inl i => inl i | inr a => inr (Some a) end
  end.

Definition field (k : string) (props : list (string * JS.value)) : JS.value :=
  match assoc_get k props with Some v => v | None => JS.VUndef end.

End Zod.

(** [createInsertSchema(conversations).omit({ id: true, createdAt: true })] *)
Definition insertConversationSchema (body : JS.value) : Zod.checked InsertConversation.t :=
  match body with
  | JS.VObj props =>
      let title := Zod.optional (Zod.nullable (Zod.string_ "title")) (Zod.field "title" props) in
      let content := Zod.string_ "content" (Zod.field "content" props) in
      let analysisType := Zod.optional (Zod.string_ "analysisType") (Zod.field "analysisType" props) in
      let model := Zod.optional (Zod.string_ "model") (Zod.field "model" props) in
      let temperature := Zod.optional (Zod.string_ "temperature") (Zod.field "temperature" props) in
      let maxTokens := Zod.optional (Zod.int32 "maxTokens") (Zod.field "maxTokens" props) in
      match title, content, analysisType, model, temperature, maxTokens with
      | inr t, inr c, inr a, inr m, inr te, inr mt =>
          inr {| InsertConversation.title := t;
                 InsertConversation.content := c;
                 InsertConversation.analysisType := a;
                 InsertConversation.model := m;
                 InsertConversation.temperature := te;
                 InsertConversation.maxTokens := mt |}
      | _, _, _, _, _, _ =>
          inl (Zod.issues title ++ Zod.issues content ++ Zod.issues analysisType
               ++ Zod.issues model ++ Zod.issues temperature ++ Zod.issues maxTokens)%list
      end
  | _ => inl [ {| Zod.path := []; Zod.code := Zod.invalid_type "object" |} ]
  end.

(** [schema.parse(x)]: the validated data, or a thrown [ZodError]. *)
Definition parse {zm : Zod.Messages} {A : Type}
    (schema : JS.value -> Zod.checked A) (x : JS.value) : outcome A :=
  match schema x with
  | inr a => Ok a
  | inl i => Throws (Zod.ZodError_message i)
  end.

(** ** server/storage.ts *)

(** What one call of a creating operation draws from its environment: the
    result of [randomUUID()] and the time [new Date()] reads, in
    milliseconds since the epoch. *)
Record entropy : Type := { uuid : string; now : Z }.

(** The storage interface, which the in-memory store and the store backed
    by a database both implement.  Every operation returns a promise, which
    may be rejected: [Throws] carries the message of the rejection, and a
    rejected operation leaves the store as it found it. *)
Class IStorage (S : Type) : Type := {
  getUser : string -> S -> outcome (option User.t);
  getUserByUsername : string -> S -> outcome (option User.t);
  createUser : InsertUser.t -> entropy -> S -> outcome (User.t * S);
  createConversation : InsertConversation.t -> entropy -> S -> outcome (Conversation.t * S);
  getConversation : string -> S -> outcome (option Conversation.t);
  getConversations : S -> outcome (list Conversation.t);
  createAnalysis : InsertAnalysis.t -> entropy -> S -> outcome (Analysis.t * S);
  getAnalysis : string -> S -> outcome (option Analysis.t);
  getAnalyses : S -> outcome (list Analysis.t)
}.

(** [Array.prototype.sort] with a comparator.  The sort is stable: [x] goes
    before [y] when the comparator is negative, after it when positive, and
    the two keep their order when it is zero. *)
Section Sort.
Context {A : Type} (compare : A -> A -> Z).

Fixpoint sort_insert (x : A) (l : list A) : list A :=
  match l with
  | [] => [x]
  | y :: l' => if (compare x y <=? 0)%Z then x :: l else y :: sort_insert x l'
  end.

Definition Array_sort (l : list A) : list A := fold_right sort_insert [] l.
End Sort.

(** The comparator of the two listings, [(a, b) => key(b) - key(a)], and
    the order it sorts into. *)
Definition newest_first {A : Type} (key : A -> Z) (a b : A) : Z := (key b - key a)%Z.
Definition not_older {A : Type} (key : A -> Z) (a b : A) : Prop := (key b <= key a)%Z.

(** [Array.prototype.find] *)
Definition Array_find {A : Type} (p : A -> bool) (l : list A) : option A := find p l.

Module MemStorage.

Record t : Type := {
  users : list (string * User.t);
  conversations : list (string * Conversation.t);
  analyses : list (string * Analysis.t)
}.

(** [new MemStorage()] *)
Definition empty : t := {| users := []; conversations := []; analyses := [] |}.

Definition getUser (id : string) (st : t) : option User.t :=
  assoc_get id (users st).

Definition getUserByUsername (username : string) (st : t) : option User.t :=
  Array_find (fun user => String.eqb (User.username user) username)
    (assoc_values (users st)).

Definition createUser (insertUser : InsertUser.t) (e : entropy) (st : t) : User.t * t :=
  let id := uuid e in
  let user := {| User.id := id;
                 User.username := InsertUser.username insertUser;
                 User.password := InsertUser.password insertUser |} in
  (user, {| users := assoc_set id user (users st);
            conversations := conversations st;
            analyses := analyses st |}).

Definition createConversation (insertConversation : InsertConversation.t)
    (e : entropy) (st : t) : Conversation.t * t :=
  let id := uuid e in
  let conversation :=
    {| Conversation.title := InsertConversation.title insertConversation;
       Conversation.content := InsertConversation.content insertConversation;
       Conversation.analysisType := InsertConversation.analysisType insertConversation;
       Conversation.model := InsertConversation.model insertConversation;
       Conversation.temperature := InsertConversation.temperature insertConversation;
       Conversation.maxTokens := InsertConversation.maxTokens insertConversation;
       Conversation.id := id;
       Conversation.createdAt := now e |} in
  (conversation,
   {| users := users st;
      conversations := assoc_set id conversation (conversations st);
      analyses := analyses st |}).

Definition getConversation (id : string) (st : t) : option Conversation.t :=
  assoc_get id (conversations st).

Definition getConversations (st : t) : list Conversation.t :=
  Array_sort (newest_first Conversation.createdAt) (assoc_values (conversations st)).

Definition createAnalysis (insertAnalysis : InsertAnalysis.t)
    (e : entropy) (st : t) : Analysis.t * t :=
  let id := uuid e in
  let analysis :=
    {| Analysis.conversationId := InsertAnalysis.conversationId insertAnalysis;
       Analysis.emotionalTone := InsertAnalysis.emotionalTone insertAnalysis;
       Analysis.powerDynamics := InsertAnalysis.powerDynamics insertAnalysis;
       Analysis.communicationPatterns := InsertAnalysis.communicationPatterns insertAnalysis;
       Analysis.relationshipInsights := InsertAnalysis.relationshipInsights insertAnalysis;
       Analysis.recommendations := InsertAnalysis.recommendations insertAnalysis;
       Analysis.emotionalIntensity := InsertAnalysis.emotionalIntensity insertAnalysis;
       Analysis.resolutionPotential := InsertAnalysis.resolutionPotential insertAnalysis;
       Analysis.communicationQuality := InsertAnalysis.communicationQuality insertAnalysis;
       Analysis.powerBalance := InsertAnalysis.powerBalance insertAnalysis;
       Analysis.rawAnalysis := InsertAnalysis.rawAnalysis insertAnalysis;
       Analysis.id := id;
       Analysis.createdAt := now e |} in
  (analysis,
   {| users := users st;
      conversations := conversations st;
      analyses := assoc_set id analysis (analyses st) |}).

Definition getAnalysis (conversationId : string) (st : t) : option Analysis.t :=
  Array_find (fun analysis => String.eqb (Analysis.conversationId analysis) conversationId)
    (assoc_values (analyses st)).

Definition getAnalyses (st : t) : list Analysis.t :=
  Array_sort (newest_first Analysis.createdAt) (assoc_values (analyses st)).

End MemStorage.

(** [MemStorage] implements [IStorage]; none of its promises is rejected. *)
#[export] Instance MemStorage_IStorage : IStorage MemStorage.t := {|
  getUser id st := Ok (MemStorage.getUser id st);
  getUserByUsername username st := Ok (MemStorage.getUserByUsername username st);
  createUser u e st := Ok (MemStorage.createUser u e st);
  createConversation c e st := Ok (MemStorage.createConversation c e st);
  getConversation id st := Ok (MemStorage.getConversation id st);
  getConversations st := Ok (MemStorage.getConversations st);
  createAnalysis a e st := Ok (MemStorage.createAnalysis a e st);
  getAnalysis conversationId st := Ok (MemStorage.getAnalysis conversationId st);
  getAnalyses st := Ok (MemStorage.getAnalyses st)
|}.

(** ** server/services/openai.ts *)

Module OpenAI.

Import JS.

(** The fields are what the handler passes at run time: a conversation
    stored without an optional field hands over [undefined], here [None]. *)
Record ConversationAnalysisRequest : Type := {
  conversation : string;
  analysisType : option string;
  model : option string;
  temperature : number;
  maxTokens : option number
}.

(** What [openai.chat.completions.create] comes back with: the call throws
    (network, credentials, a refusal of the service), or it returns the
    choices, each with the content of its message, a string or [null]. *)
Inductive completion : Type :=
| Rejected (message : string)
| Completed (choices : list (option string)).

(** The prompts are a fixed template in which the conversation and the
    analysis type of the request are inserted, and the other parameters of
    the call are fields of the request.  The remote model is free to answer
    the same request differently each time: [openai n request] is its
    answer when [request] is the call number [n] it receives. *)
Definition provider : Type := nat -> ConversationAnalysisRequest -> completion.

(** The calls made to the remote model so far, oldest first. *)
Definition calls : Type := list ConversationAnalysisRequest.

Definition create (openai : provider) (request : ConversationAnalysisRequest)
    (log : calls) : completion * calls :=
  (openai (length log) request, (log ++ [request])%list).

Definition TypeError_choices : string :=
  "Cannot read properties of undefined (reading 'message')".

Definition no_content : string := "No response content received from OpenAI".

Section WithRuntime.
Context {rt : Runtime}.

(** [Math.max(0, Math.min(10, raw || 0))] *)
Definition clamp (raw : value) : outcome value :=
  let* n := ToNumber (or_else raw (num 0)) in
  Ok (VNum (Math_max (Fin 0) (Math_min (Fin 10) n))).

(** [analysisResult.k = Math.max(0, Math.min(10, analysisResult.k || 0))] *)
Definition sanitize (k : string) (analysisResult : value) : outcome value :=
  let* raw := Get analysisResult k in
  let* score := clamp raw in
  Put analysisResult k score.

Definition scores : list string :=
  ["emotionalIntensity"; "resolutionPotential"; "communicationQuality"; "powerBalance"].

Definition analyzeConversation (openai : provider)
    (request : ConversationAnalysisRequest) (log : calls) : outcome value * calls :=
  let (response, log') := create openai request log in
  let attempt : outcome value :=
    match response with
    | Rejected message => Throws message
    | Completed [] => Throws TypeError_choices
    | Completed (content :: _) =>
        match content with
        | None => Throws no_content
        | Some text =>
            if negb (truthy (VStr text)) then Throws no_content
            else
              let* analysisResult := JSON_parse text in
              let* analysisResult := sanitize "emotionalIntensity" analysisResult in
              let* analysisResult := sanitize "resolutionPotential" analysisResult in
              let* analysisResult := sanitize "communicationQuality" analysisResult in
              let* analysisResult := sanitize "powerBalance" analysisResult in
              Ok analysisResult
        end
    end in
  match attempt with
  | Ok analysisResult => (Ok analysisResult, log')
  | Throws message => (Throws ("Failed to analyze conversation: " ++ message), log')
  end.

End WithRuntime.

End OpenAI.

(** ** server/routes.ts *)

Module Routes.

Import JS OpenAI.

Inductive payload : Type :=
| Message (message : string)
| AConversation (conversation : Conversation.t)
| Conversations (conversations : list Conversation.t)
| AnAnalysis (analysis : Analysis.t)
| Analyzed (analysis : Analysis.t) (result : value)
| Analyses (analyses : list (Analysis.t * option Conversation.t)).

Record response : Type := { status : Z; body : payload }.

(** [res.json(b)] and [res.status(s).json({ message })] *)
Definition json (b : payload) : response := {| status := 200; body := b |}.
Definition fail (s : Z) (message : string) : response :=
  {| status := s; body := Message message |}.

Section Handlers.
Context {rt : Runtime} {zm : Zod.Messages} {S : Type} {storage : IStorage S}.

(** POST /api/conversations *)
Definition post_conversations (body : value) (e : entropy) (st : S) : response * S :=
  let attempt :=
    let* validatedData := parse insertConversationSchema body in
    createConversation validatedData e st in
  match attempt with
  | Ok (conversation, st') => (json (AConversation conversation), st')
  | Throws message => (fail 400 message, st)
  end.

(** GET /api/conversations *)
Definition get_conversations (st : S) : response :=
  match getConversations st with
  | Ok conversations => json (Conversations conversations)
  | Throws message => fail 500 message
  end.

(** GET /api/conversations/:id *)
Definition get_conversation (id : string) (st : S) : response :=
  match getConversation id st with
  | Ok None => fail 404 "Conversation not found"
  | Ok (Some conversation) => json (AConversation conversation)
  | Throws message => fail 500 message
  end.

Definition analysisRequest_of (conversation : Conversation.t) : ConversationAnalysisRequest :=
  {| OpenAI.conversation := Conversation.content conversation;
     OpenAI.analysisType := Conversation.analysisType conversation;
     OpenAI.model := Conversation.model conversation;
     OpenAI.temperature :=
       parseFloat (match Conversation.temperature conversation with
                   | Some text => text
                   | None => "undefined"
                   end);
     OpenAI.maxTokens := Conversation.maxTokens conversation |}.

(** The argument of [storage.createAnalysis] in the analyze handler. *)
Definition insertAnalysis_of (conversation : Conversation.t) (analysisResult : value)
    : outcome InsertAnalysis.t :=
  let* emotionalTone := Get analysisResult "emotionalTone" in
  let* powerDynamics := Get analysisResult "powerDynamics" in
  let* communicationPatterns := Get analysisResult "communicationPatterns" in
  let* relationshipInsights := Get analysisResult "relationshipInsights" in
  let* recommendations := Get analysisResult "recommendations" in
  let* emotionalIntensity := Get analysisResult "emotionalIntensity" in
  let* emotionalIntensity := toString_method emotionalIntensity in
  let* resolutionPotential := Get analysisResult "resolutionPotential" in
  let* resolutionPotential := toString_method resolutionPotential in
  let* communicationQuality := Get analysisResult "communicationQuality" in
  let* communicationQuality := toString_method communicationQuality in
  let* powerBalance := Get analysisResult "powerBalance" in
  let* powerBalance := toString_method powerBalance in
  let* rawAnalysis := Get analysisResult "rawAnalysis" in
  Ok {| InsertAnalysis.conversationId := Conversation.id conversation;
        InsertAnalysis.emotionalTone := emotionalTone;
        InsertAnalysis.powerDynamics := powerDynamics;
        InsertAnalysis.communicationPatterns := communicationPatterns;
        InsertAnalysis.relationshipInsights := relationshipInsights;
        InsertAnalysis.recommendations :=
          match JSON_stringify recommendations with
          | Some text => VStr text
          | None => VUndef
          end;
        InsertAnalysis.emotionalIntensity := emotionalIntensity;
        InsertAnalysis.resolutionPotential := resolutionPotential;
        InsertAnalysis.communicationQuality := communicationQuality;
        InsertAnalysis.powerBalance := powerBalance;
        InsertAnalysis.rawAnalysis := rawAnalysis |}.

(** POST /api/conversations/:id/analyze.  The handler runs in a store
    and with a record of the calls the remote model has received; it
    yields the response, the store and the record as it leaves them. *)
Definition post_analyze (openai : provider) (id : string) (body : value)
    (e : entropy) (st : S) (log : calls) : response * S * calls :=
  match getConversation id st with
  | Throws message => (fail 500 message, st, log)
  | Ok None => (fail 404 "Conversation not found", st, log)
  | Ok (Some conversation) =>
      let analysisRequest := analysisRequest_of conversation in
      let (analyzed, log') := analyzeConversation openai analysisRequest log in
      let attempt :=
        let* analysisResult := analyzed in
        let* insertAnalysis := insertAnalysis_of conversation analysisResult in
        let* created := createAnalysis insertAnalysis e st in
        Ok (created, analysisResult) in
      match attempt with
      | Ok ((analysis, st'), analysisResult) =>
          (json (Analyzed analysis analysisResult), st', log')
      | Throws message => (fail 500 message, st, log')
      end
  end.

(** GET /api/conversations/:id/analysis *)
Definition get_analysis (id : string) (st : S) : response :=
  match getAnalysis id st with
  | Ok None => fail 404 "Analysis not found"
  | Ok (Some analysis) => json (AnAnalysis analysis)
  | Throws message => fail 500 message
  end.

(** GET /api/analyses *)
Definition get_analyses (st : S) : response :=
  let attempt :=
    let* analyses := getAnalyses st in
    let* conversations := getConversations st in
    Ok (map (fun analysis =>
               (analysis,
                Array_find (fun c => String.eqb (Conversation.id c)
                                       (Analysis.conversationId analysis))
                  conversations))
            analyses) in
  match attempt with
  | Ok analysesWithConversations => json (Analyses analysesWithConversations)
  | Throws message => fail 500 message
  end.

End Handlers.

End Routes.

(** ** The stores the server goes through

    The server starts with [new MemStorage()], and only two of its handlers
    write to the store.  Identifiers and times are whatever the environment
    hands over: nothing is assumed of them, not even that an identifier is
    new. *)

Section Reachable.
Context {rt : JS.Runtime} {zm : Zod.Messages}.

Inductive reachable : MemStorage.t -> Prop :=
| reach_start : reachable MemStorage.empty
| reach_create (body : JS.value) (e : entropy) (st : MemStorage.t) :
    reachable st ->
    reachable (snd (Routes.post_conversations body e st))
| reach_analyze (openai : OpenAI.provider) (id : string) (body : JS.value)
    (e : entropy) (log : OpenAI.calls) (st : MemStorage.t) :
    reachable st ->
    reachable (snd (fst (Routes.post_analyze openai id body e st log))).

End Reachable.

(** Every record is stored under its own identifier. *)
Definition keyed_by_id (st : MemStorage.t) : Prop :=
  (forall k c, In (k, c) (MemStorage.conversations st) -> Conversation.id c = k)
  /\ (forall k a, In (k, a) (MemStorage.analyses st) -> Analysis.id a = k).

(** No two entries of a collection have the same key. *)
Definition distinct_keys (st : MemStorage.t) : Prop :=
  NoDup (map fst (MemStorage.conversations st))
  /\ NoDup (map fst (MemStorage.analyses st)).

(** Every analysis belongs to a conversation that is stored. *)
Definition analyses_refer_to_conversations (st : MemStorage.t) : Prop :=
  forall k a,
    In (k, a) (MemStorage.analyses st) ->
    exists c, In (Analysis.conversationId a, c) (MemStorage.conversations st).

(** ** A sample environment

    Concrete stand-ins for the parameters of the development, used where a
    statement is evaluated on an example. *)

Module Sample.

Import JS.

(** Prints integers and the non-finite numbers as the engine does; the
    examples print nothing else. *)
Definition Number_toString (n : number) : string :=
  match n with
  | NaN => "NaN"
  | PosInf => "Infinity"
  | NegInf => "-Infinity"
  | Fin q => DecimalString.NilZero.string_of_int (Z.to_int (Qnum q / Zpos (Qden q)))
  end.

(** [{ recommendations: [ breathe, listen ], rawAnalysis: calm }] *)
Definition advice : value :=
  VObj [("recommendations", VArr [VStr "breathe"; VStr "listen"] []);
        ("rawAnalysis", VStr "calm")].

(** [{ emotionalIntensity: high }], the score being the string. *)
Definition worded : value := VObj [("emotionalIntensity", VStr "high")].

Definition quoted : string -> string := QuoteJSONString.

Definition advice_text : string :=
  "{" ++ quoted "recommendations" ++ ":[" ++ quoted "breathe" ++ "," ++ quoted "listen"
  ++ "]," ++ quoted "rawAnalysis" ++ ":" ++ quoted "calm" ++ "}".

Definition worded_text : string :=
  "{" ++ quoted "emotionalIntensity" ++ ":" ++ quoted "high" ++ "}".

(** A reader that knows the two texts above and reads them as the engine
    does; it refuses every other text, among them the text [oops] of the
    examples, which is not JSON.  No example converts a numeric string. *)
#[export] Instance runtime : Runtime := {|
  StringNumericValue := fun _ => Fin 0;
  JS.Number_toString := Number_toString;
  parseFloat := fun s => if String.eqb s "0.7" then Fin 0.7 else NaN;
  JSON_parse := fun text =>
    if String.eqb text advice_text then Ok advice
    else if String.eqb text worded_text then Ok worded
    else Throws "Unexpected token o in JSON at position 0"
|}.

#[export] Instance messages : Zod.Messages := {|
  Zod.ZodError_message := fun issues =>
    String.concat "; " (map (fun i => String.concat "." (Zod.path i)) issues)
|}.

(** A storage whose backend cannot be reached: every promise is rejected. *)
Definition unreachable : string := "connect ECONNREFUSED".

#[export] Instance Unreachable : IStorage unit := {|
  getUser _ _ := Throws unreachable;
  getUserByUsername _ _ := Throws unreachable;
  createUser _ _ _ := Throws unreachable;
  createConversation _ _ _ := Throws unreachable;
  getConversation _ _ := Throws unreachable;
  getConversations _ := Throws unreachable;
  createAnalysis _ _ _ := Throws unreachable;
  getAnalysis _ _ := Throws unreachable;
  getAnalyses _ := Throws unreachable
|}.

(** A remote model that answers its first call with a text that is not JSON
    and every later call with the advice. *)
Definition flaky : OpenAI.provider :=
  fun n _ =>
    match n with
    | O => OpenAI.Completed [Some "oops"]
    | _ => OpenAI.Completed [Some advice_text]
    end.

(** Remote models that always give the same answer. *)
Definition advising : OpenAI.provider := fun _ _ => OpenAI.Completed [Some advice_text].
Definition wording : OpenAI.provider := fun _ _ => OpenAI.Completed [Some worded_text].

Definition hello : InsertConversation.t :=
  {| InsertConversation.title := None;
     InsertConversation.content := "A: hi. B: hello.";
     InsertConversation.analysisType := None;
     InsertConversation.model := Some "gpt-4o";
     InsertConversation.temperature := Some "0.7";
     InsertConversation.maxTokens := Some (Fin 500) |}.

(** A store holding one conversation, created at time 1000 under [c-1]. *)
Definition first : Conversation.t :=
  fst (MemStorage.createConversation hello {| uuid := "c-1"; now := 1000 |} MemStorage.empty).
Definition one : MemStorage.t :=
  snd (MemStorage.createConversation hello {| uuid := "c-1"; now := 1000 |} MemStorage.empty).

(** The same store after a second conversation, created at time 2000. *)
Definition two : MemStorage.t :=
  snd (MemStorage.createConversation hello {| uuid := "c-2"; now := 2000 |} one).

End Sample.

(** ** More samples *)

Module Replies.

Import JS.

(** [{ emotionalIntensity: 15, resolutionPotential: -5,
       communicationQuality: 7.3, powerBalance: 0,
       recommendations: [ breathe ], rawAnalysis: calm }] *)
Definition scored : value :=
  VObj [("emotionalIntensity", num 15);
        ("resolutionPotential", num (-5));
        ("communicationQuality", num 7.3);
        ("powerBalance", num 0);
        ("recommendations", VArr [VStr "breathe"] []);
        ("rawAnalysis", VStr "calm")].

Definition scored_text : string :=
  "{" ++ Sample.quoted "emotionalIntensity" ++ ":15,"
  ++ Sample.quoted "resolutionPotential" ++ ":-5,"
  ++ Sample.quoted "communicationQuality" ++ ":7.3,"
  ++ Sample.quoted "powerBalance" ++ ":0,"
  ++ Sample.quoted "recommendations" ++ ":[" ++ Sample.quoted "breathe" ++ "],"
  ++ Sample.quoted "rawAnalysis" ++ ":" ++ Sample.quoted "calm" ++ "}".

(** Prints the non-negative numbers with at most one decimal as the engine
    does, and the others as [Sample.Number_toString] does. *)
Definition Number_toString (n : number) : string :=
  match n with
  | Fin q =>
      let tenths := (Qnum q * 10 / Zpos (Qden q))%Z in
      if ((Qnum q * 10 mod Zpos (Qden q) =? 0) && negb (tenths mod 10 =? 0)
          && (0 <? tenths))%Z
      then DecimalString.NilZero.string_of_int (Z.to_int (tenths / 10)) ++ "."
           ++ DecimalString.NilZero.string_of_int (Z.to_int (tenths mod 10))
      else Sample.Number_toString n
  | _ => Sample.Number_toString n
  end.

(** A reader that knows the text above and the text [null], besides those
    of [Sample.runtime]. *)
#[export] Instance runtime : Runtime := {|
  StringNumericValue := fun _ => Fin 0;
  JS.Number_toString := Number_toString;
  parseFloat := fun s => if String.eqb s "0.7" then Fin 0.7 else NaN;
  JSON_parse := fun text =>
    if String.eqb text scored_text then Ok scored
    else if String.eqb text "null" then Ok VNull
    else JSON_parse (Runtime := Sample.runtime) text
|}.

(** Remote models that always give the same answer, and one that is out of
    reach. *)
Definition scoring : OpenAI.provider := fun _ _ => OpenAI.Completed [Some scored_text].
Definition nulling : OpenAI.provider := fun _ _ => OpenAI.Completed [Some "null"].
Definition silent : OpenAI.provider := fun _ _ => OpenAI.Completed [].
Definition refusing : OpenAI.provider :=
  fun _ _ => OpenAI.Rejected "401 Incorrect API key provided".

(** The analysis of the first conversation of [Sample.one], scored. *)
Definition analyzed : Routes.response * MemStorage.t * OpenAI.calls :=
  Routes.post_analyze (rt := runtime) (storage := MemStorage_IStorage) scoring
    "c-1" VUndef {| uuid := "a-1"; now := 3000 |} Sample.one [].

End Replies.

(** * Properties *)

(** ** Tables *)

Section AssocFacts.
Context {V : Type}.
Implicit Types (k : string) (v : V) (m : list (string * V)).

Lemma assoc_get_set_same k v m : assoc_get k (assoc_set k v m) = Some v.
Proof.
  induction m as [|[k' v'] m IH]; simpl.
  - now rewrite String.eqb_refl.
  - destruct (String.eqb k k') eqn:E; simpl.
    + now rewrite String.eqb_refl.
    + now rewrite E.
Qed.

Lemma assoc_get_set_other k k' v m :
  k <> k' -> assoc_get k' (assoc_set k v m) = assoc_get k' m.
Proof.
  intros Hne. induction m as [|[k0 v0] m IH]; simpl.
  - destruct (String.eqb k' k) eqn:E; [|reflexivity].
    apply String.eqb_eq in E. congruence.
  - destruct (String.eqb k k0) eqn:E; simpl.
    + apply String.eqb_eq in E. subst k0.
      destruct (String.eqb k' k) eqn:E'; [|reflexivity].
      apply String.eqb_eq in E'. congruence.
    + now rewrite IH.
Qed.

(** A key that is not in the table goes to its end. *)
Lemma assoc_set_fresh k v m :
  assoc_get k m = None -> assoc_set k v m = (m ++ [(k, v)])%list.
Proof.
  induction m as [|[k' v'] m IH]; simpl; [reflexivity|].
  destruct (String.eqb k k'); [discriminate|].
  intros H. now rewrite IH.
Qed.

(** Whatever was stored is still there after a write under a fresh key. *)
Lemma assoc_get_set_fresh k k' v v' m :
  assoc_get k m = None -> assoc_get k' m = Some v' ->
  assoc_get k' (assoc_set k v m) = Some v'.
Proof.
  intros Hfresh Hget. rewrite assoc_get_set_other; [assumption|].
  intros ->. congruence.
Qed.
End AssocFacts.

Lemma find_app_l {A : Type} (p : A -> bool) (l l' : list A) (x : A) :
  find p l = Some x -> find p (l ++ l')%list = Some x.
Proof.
  induction l as [|y l IH]; simpl; [discriminate|].
  destruct (p y); auto.
Qed.

(** ** Sorting by creation time, most recent first *)

Section SortFacts.
Context {A : Type} (key : A -> Z).

Lemma sort_insert_Permutation (x : A) (l : list A) :
  Permutation (sort_insert (newest_first key) x l) (x :: l).
Proof.
  induction l as [|y l IH]; simpl; [reflexivity|].
  destruct (newest_first key x y <=? 0)%Z; [reflexivity|].
  rewrite IH. apply perm_swap.
Qed.

Lemma Array_sort_Permutation (l : list A) :
  Permutation (Array_sort (newest_first key) l) l.
Proof.
  induction l as [|x l IH]; simpl; [reflexivity|].
  rewrite sort_insert_Permutation. now apply perm_skip.
Qed.

Lemma sort_insert_sorted (x : A) (l : list A) :
  StronglySorted (not_older key) l ->
  StronglySorted (not_older key) (sort_insert (newest_first key) x l).
Proof.
  induction 1 as [|y l Hs IH Hy]; simpl.
  - repeat constructor.
  - unfold newest_first at 1.
    destruct (Z.leb_spec (key y - key x) 0) as [Hle|Hgt].
    + constructor; [now constructor|].
      constructor; [unfold not_older; lia|].
      eapply Forall_impl; [|exact Hy].
      unfold not_older. intros z Hz. lia.
    + constructor; [assumption|].
      rewrite (sort_insert_Permutation x l).
      constructor; [unfold not_older; lia | assumption].
Qed.

Lemma Array_sort_sorted (l : list A) :
  StronglySorted (not_older key) (Array_sort (newest_first key) l).
Proof.
  induction l as [|x l IH]; simpl; [constructor|].
  now apply sort_insert_sorted.
Qed.

(** In a sorted list an earlier position holds a record that is not older. *)
Lemma sorted_positions (l : list A) :
  StronglySorted (not_older key) l ->
  forall i j a b,
    nth_error l i = Some a -> nth_error l j = Some b ->
    (i < j)%nat -> not_older key a b.
Proof.
  induction 1 as [|x l Hs IH Hx]; intros i j a b Hi Hj Hlt.
  - destruct i; discriminate.
  - destruct j as [|j]; [lia|]. simpl in Hj.
    destruct i as [|i]; simpl in Hi.
    + injection Hi as <-.
      rewrite Forall_forall in Hx. apply Hx.
      eapply nth_error_In; eassumption.
    + eapply IH; eauto. lia.
Qed.

(** Of two records of the sorted list, the one created later comes first. *)
Lemma later_comes_first (l : list A) i j a b :
  nth_error (Array_sort (newest_first key) l) i = Some a ->
  nth_error (Array_sort (newest_first key) l) j = Some b ->
  (key a < key b)%Z -> (j < i)%nat.
Proof.
  intros Hi Hj Hlt.
  destruct (Nat.lt_trichotomy i j) as [H|[H|H]]; [| |assumption].
  - pose proof (sorted_positions _ (Array_sort_sorted l) i j a b Hi Hj H) as Hno.
    unfold not_older in Hno. lia.
  - subst j. rewrite Hi in Hj. injection Hj as <-. lia.
Qed.
(** The sort is stable: the records created at one same time keep the
    order in which they were listed. *)
Lemma sort_insert_same_time (t : Z) (x : A) (l : list A) :
  filter (fun y => (key y =? t)%Z) (sort_insert (newest_first key) x l)
  = filter (fun y => (key y =? t)%Z) (x :: l).
Proof.
  induction l as [|y l IH]; [reflexivity|].
  cbn [sort_insert]. unfold newest_first at 1.
  destruct (Z.leb_spec (key y - key x) 0) as [Hle|Hgt]; [reflexivity|].
  cbn [filter] in *. rewrite IH.
  destruct (Z.eqb_spec (key y) t), (Z.eqb_spec (key x) t); try reflexivity; lia.
Qed.

Lemma Array_sort_stable (t : Z) (l : list A) :
  filter (fun y => (key y =? t)%Z) (Array_sort (newest_first key) l)
  = filter (fun y => (key y =? t)%Z) l.
Proof.
  induction l as [|x l IH]; [reflexivity|].
  cbn [Array_sort fold_right]. rewrite sort_insert_same_time.
  cbn [filter]. fold (Array_sort (newest_first key) l). now rewrite IH.
Qed.
End SortFacts.

(** ** The in-memory store *)

Module MemStorageFacts.

Import MemStorage.

(** C6. [getConversations] returns all the stored conversations, ordered by
    [createdAt] descending: of two conversations with distinct creation
    times the one created later stands before the other in the list.
    [getAnalyses] orders the analyses in the same way. *)
Theorem listings_most_recent_first (st : MemStorage.t) :
  Permutation (getConversations st) (assoc_values (conversations st))
  /\ (forall i j a b,
        nth_error (getConversations st) i = Some a ->
        nth_error (getConversations st) j = Some b ->
        (Conversation.createdAt a < Conversation.createdAt b)%Z ->
        (j < i)%nat)
  /\ Permutation (getAnalyses st) (assoc_values (analyses st))
  /\ (forall i j a b,
        nth_error (getAnalyses st) i = Some a ->
        nth_error (getAnalyses st) j = Some b ->
        (Analysis.createdAt a < Analysis.createdAt b)%Z ->
        (j < i)%nat).
Proof.
  unfold getConversations, getAnalyses. repeat split.
  - apply Array_sort_Permutation.
  - intros i j a b. apply later_comes_first.
  - apply Array_sort_Permutation.
  - intros i j a b. apply later_comes_first.
Qed.

Lemma listings_most_recent_first_witness :
  exists a b,
    nth_error (getConversations Sample.two) 1 = Some a
    /\ nth_error (getConversations Sample.two) 0 = Some b
    /\ (Conversation.createdAt a < Conversation.createdAt b)%Z
    /\ Conversation.id a = "c-1" /\ Conversation.id b = "c-2"
    /\ (0 < 1)%nat.
Proof.
  eexists. eexists.
  split; [reflexivity|]. split; [reflexivity|].
  split; [reflexivity|]. split; [reflexivity|]. split; [reflexivity|].
  apply (proj1 (proj2 (listings_most_recent_first Sample.two)) 1%nat 0%nat _ _
           eq_refl eq_refl).
  reflexivity.
Defined.





End MemStorageFacts.

(** ** The analyze handler *)

Module RoutesFacts.

Import JS OpenAI Routes.

Section AnyStorage.
Context {rt : Runtime} {zm : Zod.Messages} {S : Type} {storage : IStorage S}.
Variable openai : provider.

(** The remote model receives one call per analysis, whatever it answers. *)
Lemma analyzeConversation_calls (request : ConversationAnalysisRequest) (log : calls) :
  snd (analyzeConversation openai request log) = (log ++ [request])%list.
Proof.
  unfold analyzeConversation, create.
  match goal with |- snd (match ?a with _ => _ end) = _ => destruct a end; reflexivity.
Qed.

(** The calls the handler leaves are those of its one analysis. *)
Lemma post_analyze_calls (id : string) (body : value) (e : entropy) (st : S)
    (log : calls) (conversation : Conversation.t) :
  getConversation id st = Ok (Some conversation) ->
  snd (post_analyze openai id body e st log)
  = snd (analyzeConversation openai (analysisRequest_of conversation) log).
Proof.
  intros H. unfold post_analyze. rewrite H.
  destruct (analyzeConversation openai (analysisRequest_of conversation) log)
    as [analyzed log'].
  match goal with |- snd (match ?a with _ => _ end) = _ => destruct a as [[[? ?] ?]|?] end;
    reflexivity.
Qed.

(** C7. When the conversation is absent from the store, the analyze handler
    answers 404, leaves the store as it was, and the remote model has
    received no call. *)
Theorem analyze_absent_conversation (id : string) (body : value)
    (e : entropy) (st : S) (log : calls) :
  getConversation id st = Ok None ->
  post_analyze openai id body e st log
  = (fail 404 "Conversation not found", st, log).
Proof.
  intros H. unfold post_analyze. now rewrite H.
Qed.

(** C3. The analyze handler does not read the body of the request: two
    calls that differ in their body only have the same outcome, and the
    one request the remote model receives is made of the fields of the
    stored conversation, its temperature parsed. *)
Theorem analyze_ignores_request_body (id : string) (body1 body2 : value)
    (e : entropy) (st : S) (log : calls) :
  post_analyze openai id body1 e st log = post_analyze openai id body2 e st log
  /\ (forall conversation,
        getConversation id st = Ok (Some conversation) ->
        snd (post_analyze openai id body1 e st log)
        = (log ++ [ {| OpenAI.conversation := Conversation.content conversation;
                       OpenAI.analysisType := Conversation.analysisType conversation;
                       OpenAI.model := Conversation.model conversation;
                       OpenAI.temperature :=
                         parseFloat (match Conversation.temperature conversation with
                                     | Some text => text
                                     | None => "undefined"
                                     end);
                       OpenAI.maxTokens := Conversation.maxTokens conversation |} ])%list).
Proof.
  split; [reflexivity|].
  intros conversation H. rewrite (post_analyze_calls id body1 e st log conversation H).
  apply analyzeConversation_calls.
Qed.

(** C2. For a stored conversation, when the remote model returns no
    content, empty content, or a text that is not JSON, the analyze handler
    answers with an error whose message carries the cause, the store is
    left as it was (no analysis is recorded), and the remote model has
    received exactly one call: the failure is not retried. *)
Theorem analyze_unusable_content (id : string) (body : value) (e : entropy)
    (st : S) (log : calls) (conversation : Conversation.t)
    (content : option string) (rest : list (option string)) :
  getConversation id st = Ok (Some conversation) ->
  openai (length log) (analysisRequest_of conversation) = Completed (content :: rest) ->
  (content = None \/ content = Some EmptyString ->
   post_analyze openai id body e st log
   = (fail 500 ("Failed to analyze conversation: " ++ no_content), st,
      (log ++ [analysisRequest_of conversation])%list))
  /\ (forall text cause,
        content = Some text -> text <> EmptyString ->
        JSON_parse text = Throws cause ->
        post_analyze openai id body e st log
        = (fail 500 ("Failed to analyze conversation: " ++ cause), st,
           (log ++ [analysisRequest_of conversation])%list)).
Proof.
  intros Hstored Hanswer. unfold post_analyze. rewrite Hstored.
  unfold analyzeConversation, create. rewrite Hanswer. split.
  - intros [-> | ->]; reflexivity.
  - intros text cause -> Hne Hparse. simpl.
    destruct (String.eqb_spec text EmptyString) as [|_]; [contradiction|].
    simpl. rewrite Hparse. reflexivity.
Qed.

End AnyStorage.

Lemma analyze_absent_conversation_witness :
  getConversation "c-9" Sample.one = Ok None
  /\ post_analyze (rt := Sample.runtime) Sample.advising "c-9" VUndef
       {| uuid := "a-1"; now := 3000 |} Sample.one []
     = (fail 404 "Conversation not found", Sample.one, []).
Proof.
  split; [reflexivity|].
  apply (analyze_absent_conversation (rt := Sample.runtime)); reflexivity.
Defined.

Lemma analyze_ignores_request_body_witness :
  getConversation "c-1" Sample.one <> Ok None
  /\ length (snd (post_analyze (rt := Sample.runtime) Sample.advising "c-1"
                    (VObj [("model", VStr "other")])
                    {| uuid := "a-1"; now := 3000 |} Sample.one [])) = 1%nat.
Proof.
  split; [discriminate|].
  destruct (analyze_ignores_request_body (rt := Sample.runtime)
              (storage := MemStorage_IStorage) Sample.advising "c-1"
              (VObj [("model", VStr "other")]) VUndef
              {| uuid := "a-1"; now := 3000 |} Sample.one []) as [_ H].
  rewrite (H Sample.first eq_refl). reflexivity.
Defined.

Lemma analyze_unusable_content_witness :
  getConversation "c-1" Sample.one <> Ok None
  /\ JSON_parse (Runtime := Sample.runtime) "oops"
     = Throws "Unexpected token o in JSON at position 0"
  /\ fst (post_analyze (rt := Sample.runtime) Sample.flaky "c-1" VUndef
            {| uuid := "a-1"; now := 3000 |} Sample.one [])
     = (fail 500 "Failed to analyze conversation: Unexpected token o in JSON at position 0",
        Sample.one).
Proof.
  split; [discriminate|]. split; [reflexivity|].
  destruct (analyze_unusable_content (rt := Sample.runtime)
              (storage := MemStorage_IStorage) Sample.flaky "c-1" VUndef
              {| uuid := "a-1"; now := 3000 |} Sample.one [] Sample.first
              (Some "oops") [] eq_refl eq_refl) as [_ H].
  rewrite (H "oops" "Unexpected token o in JSON at position 0" eq_refl);
    [reflexivity | discriminate | reflexivity].
Defined.

End RoutesFacts.


(** ** The create handler *)

Module CreateFacts.

Import JS Routes.

Section AnyStorage.
Context {zm : Zod.Messages} {S : Type} {storage : IStorage S}.

(** C9. Whatever fails inside the create handler, the violation of the schema
    or a rejection by the storage, is answered with status 400 and the
    message of the error; the handler answers 200 or 400 and nothing else. *)
Theorem create_failures_are_400 (body : value) (e : entropy) (st : S) :
  (status (fst (post_conversations body e st)) = 200%Z
   \/ status (fst (post_conversations body e st)) = 400%Z)
  /\ (forall issues,
        insertConversationSchema body = inl issues ->
        post_conversations body e st = (fail 400 (Zod.ZodError_message issues), st))
  /\ (forall validatedData message,
        insertConversationSchema body = inr validatedData ->
        createConversation validatedData e st = Throws message ->
        post_conversations body e st = (fail 400 message, st)).
Proof.
  unfold post_conversations, parse. repeat split.
  - destruct (insertConversationSchema body) as [issues|validatedData]; simpl.
    + now right.
    + destruct (createConversation validatedData e st) as [[conversation st']|message];
        simpl; [now left | now right].
  - intros issues ->. reflexivity.
  - intros validatedData message -> Hfault. simpl. now rewrite Hfault.
Qed.

End AnyStorage.

Lemma create_failures_are_400_witness :
  insertConversationSchema (VObj [("content", VStr "A: hi. B: hello.")])
  = inr {| InsertConversation.title := None;
           InsertConversation.content := "A: hi. B: hello.";
           InsertConversation.analysisType := None;
           InsertConversation.model := None;
           InsertConversation.temperature := None;
           InsertConversation.maxTokens := None |}
  /\ post_conversations (zm := Sample.messages) (storage := Sample.Unreachable)
       (VObj [("content", VStr "A: hi. B: hello.")]) {| uuid := "c-1"; now := 1000 |} tt
     = (fail 400 Sample.unreachable, tt).
Proof.
  split; [reflexivity|].
  destruct (create_failures_are_400 (zm := Sample.messages) (storage := Sample.Unreachable)
              (VObj [("content", VStr "A: hi. B: hello.")])
              {| uuid := "c-1"; now := 1000 |} tt) as (_ & _ & H).
  eapply H; reflexivity.
Defined.

Section InMemory.
Context {zm : Zod.Messages}.

(** What passes the schema is stored, returned, and found under its identifier. *)
Lemma valid_request_is_stored (body : value) (e : entropy) (st : MemStorage.t)
    (validatedData : InsertConversation.t) :
  insertConversationSchema body = inr validatedData ->
  post_conversations body e st
  = (json (AConversation (fst (MemStorage.createConversation validatedData e st))),
     snd (MemStorage.createConversation validatedData e st))
  /\ MemStorage.getConversation (uuid e)
       (snd (MemStorage.createConversation validatedData e st))
     = Some (fst (MemStorage.createConversation validatedData e st)).
Proof.
  intros Hvalid. unfold post_conversations, parse. rewrite Hvalid. simpl.
  split; [reflexivity|]. apply assoc_get_set_same.
Qed.

(** A request whose content is not a string does not pass the schema. *)
Lemma content_must_be_string (props : list (string * value)) :
  (forall s, Zod.field "content" props <> VStr s) ->
  exists issues,
    insertConversationSchema (VObj props) = inl issues
    /\ In {| Zod.path := ["content"]; Zod.code := Zod.invalid_type "string" |} issues.
Proof.
  intros Hnot. unfold insertConversationSchema.
  assert (Hc : Zod.string_ "content" (Zod.field "content" props)
               = inl [ {| Zod.path := ["content"]; Zod.code := Zod.invalid_type "string" |} ]).
  { destruct (Zod.field "content" props) eqn:E; try reflexivity.
    exfalso. now apply (Hnot s). }
  rewrite Hc.
  destruct (Zod.optional (Zod.nullable (Zod.string_ "title")) (Zod.field "title" props))
    as [l|t]; (eexists; split; [reflexivity|]); simpl.
  - apply in_or_app. right. now left.
  - now left.
Qed.

(** C4, as the code has it. A creation request whose content is absent or is
    not a string is rejected with status 400, the message naming [content],
    and nothing is stored.  A request that passes the schema is stored and is
    found under the identifier it was given.  The schema asks that content be
    a string and nothing more: the empty string passes. *)
Theorem create_requires_string_content (e : entropy) (st : MemStorage.t) :
  (forall props,
     (forall s, Zod.field "content" props <> VStr s) ->
     exists issues,
       In {| Zod.path := ["content"]; Zod.code := Zod.invalid_type "string" |} issues
       /\ post_conversations (VObj props) e st
          = (fail 400 (Zod.ZodError_message issues), st))
  /\ (forall body validatedData,
        insertConversationSchema body = inr validatedData ->
        exists conversation st',
          post_conversations body e st = (json (AConversation conversation), st')
          /\ Conversation.id conversation = uuid e
          /\ Conversation.content conversation = InsertConversation.content validatedData
          /\ MemStorage.getConversation (uuid e) st' = Some conversation)
  /\ (forall s,
        insertConversationSchema (VObj [("content", VStr s)])
        = inr {| InsertConversation.title := None;
                 InsertConversation.content := s;
                 InsertConversation.analysisType := None;
                 InsertConversation.model := None;
                 InsertConversation.temperature := None;
                 InsertConversation.maxTokens := None |}).
Proof.
  repeat split.
  - intros props Hnot.
    destruct (content_must_be_string props Hnot) as (issues & Hschema & Hin).
    exists issues. split; [assumption|].
    unfold post_conversations, parse. now rewrite Hschema.
  - intros body validatedData Hvalid.
    destruct (valid_request_is_stored body e st validatedData Hvalid) as [Hres Hget].
    eexists. eexists. split; [exact Hres|]. split; [reflexivity|].
    split; [reflexivity | exact Hget].
Qed.

End InMemory.

(** C4, as the claim has it, fails: a request whose content is the empty
    string is answered 200, and the conversation is stored. *)
Lemma empty_content_is_stored :
  exists conversation st',
    post_conversations (zm := Sample.messages) (storage := MemStorage_IStorage)
      (VObj [("content", VStr EmptyString)]) {| uuid := "c-1"; now := 1000 |}
      MemStorage.empty
    = ({| status := 200; body := AConversation conversation |}, st')
    /\ Conversation.content conversation = EmptyString
    /\ MemStorage.getConversation "c-1" st' = Some conversation.
Proof.
  eexists. eexists. split; [reflexivity|]. split; reflexivity.
Qed.

Lemma create_requires_string_content_witness :
  (forall s, Zod.field "content" [("content", num 5)] <> VStr s)
  /\ exists issues,
       In {| Zod.path := ["content"]; Zod.code := Zod.invalid_type "string" |} issues
       /\ post_conversations (zm := Sample.messages) (storage := MemStorage_IStorage)
            (VObj [("content", num 5)]) {| uuid := "c-1"; now := 1000 |} MemStorage.empty
          = (fail 400 (Zod.ZodError_message (Messages := Sample.messages) issues),
             MemStorage.empty).
Proof.
  assert (H : forall s, Zod.field "content" [("content", num 5)] <> VStr s)
    by (intros s; discriminate).
  split; [exact H|].
  exact (proj1 (create_requires_string_content (zm := Sample.messages)
                  {| uuid := "c-1"; now := 1000 |} MemStorage.empty) _ H).
Defined.

Section MaxTokens.
Context {zm : Zod.Messages}.

(** An integer of the range, however the rational is written, is a valid
    response-length budget. *)
Lemma int32_accepts (p : string) (q : Q) (n : Z) :
  (q == inject_Z n)%Q ->
  (-2147483648 <= n <= 2147483647)%Z ->
  Zod.int32 p (VNum (Fin q)) = inr (Fin q).
Proof.
  intros Heq [Hlo Hhi]. unfold Zod.int32.
  assert (H1 : Qle_bool Zod.INT32_MIN q = true).
  { apply Qle_bool_iff. rewrite Heq. unfold Qle, Zod.INT32_MIN. simpl. lia. }
  assert (H2 : Qle_bool q Zod.INT32_MAX = true).
  { apply Qle_bool_iff. rewrite Heq. unfold Qle, Zod.INT32_MAX. simpl. lia. }
  assert (H3 : Zod.is_integer q = true).
  { unfold Zod.is_integer. unfold Qeq in Heq. simpl in Heq.
    rewrite Z.mul_1_r in Heq. rewrite Heq, Z.mod_mul by discriminate. reflexivity. }
  rewrite H1, H2, H3. reflexivity.
Qed.

(** A body whose six fields are valid passes the schema, and the validated
    data are the values of its fields. *)
Lemma schema_passes (props : list (string * value))
    (title : option (option string)) (content : string)
    (analysisType model temperature : option string) (maxTokens : option number) :
  Zod.optional (Zod.nullable (Zod.string_ "title")) (Zod.field "title" props) = inr title ->
  Zod.string_ "content" (Zod.field "content" props) = inr content ->
  Zod.optional (Zod.string_ "analysisType") (Zod.field "analysisType" props)
  = inr analysisType ->
  Zod.optional (Zod.string_ "model") (Zod.field "model" props) = inr model ->
  Zod.optional (Zod.string_ "temperature") (Zod.field "temperature" props)
  = inr temperature ->
  Zod.optional (Zod.int32 "maxTokens") (Zod.field "maxTokens" props) = inr maxTokens ->
  insertConversationSchema (VObj props)
  = inr {| InsertConversation.title := title;
           InsertConversation.content := content;
           InsertConversation.analysisType := analysisType;
           InsertConversation.model := model;
           InsertConversation.temperature := temperature;
           InsertConversation.maxTokens := maxTokens |}.
Proof.
  intros H1 H2 H3 H4 H5 H6. unfold insertConversationSchema.
  rewrite H1, H2, H3, H4, H5, H6. reflexivity.
Qed.

(** What is not a number is not a valid response-length budget. *)
Lemma maxTokens_must_be_number (props : list (string * value)) :
  Zod.field "maxTokens" props <> VUndef ->
  (forall n, Zod.field "maxTokens" props <> VNum n) ->
  exists issues,
    insertConversationSchema (VObj props) = inl issues
    /\ In {| Zod.path := ["maxTokens"]; Zod.code := Zod.invalid_type "number" |} issues.
Proof.
  intros Hdef Hnum. unfold insertConversationSchema.
  assert (Hm : Zod.optional (Zod.int32 "maxTokens") (Zod.field "maxTokens" props)
               = inl [ {| Zod.path := ["maxTokens"]; Zod.code := Zod.invalid_type "number" |} ]).
  { destruct (Zod.field "maxTokens" props) eqn:E; try reflexivity.
    - contradiction.
    - exfalso. now apply (Hnum n). }
  rewrite Hm.
  destruct (Zod.optional (Zod.nullable (Zod.string_ "title")) (Zod.field "title" props)),
           (Zod.string_ "content" (Zod.field "content" props)),
           (Zod.optional (Zod.string_ "analysisType") (Zod.field "analysisType" props)),
           (Zod.optional (Zod.string_ "model") (Zod.field "model" props)),
           (Zod.optional (Zod.string_ "temperature") (Zod.field "temperature" props)).
  all: eexists; split; [reflexivity|].
  all: unfold Zod.issues; rewrite ?in_app_iff; simpl; tauto.
Qed.

(** C5, as the code has it. The response-length budget of a creation request
    is optional.  In every request whose other fields are valid, a budget
    that is an integer in the range of a 32-bit signed integer is accepted
    and stored as given, whether or not it is one of 250, 500, 1000 and 1500,
    the other fields being stored as they were validated; and a request that
    leaves the budget out is accepted.  In every request, a budget that is
    not a number is rejected with status 400, the message naming
    [maxTokens], and nothing is stored. *)
Theorem create_takes_any_int32_maxTokens (e : entropy) (st : MemStorage.t)
    (props : list (string * value)) :
  (forall title content analysisType model temperature,
     Zod.optional (Zod.nullable (Zod.string_ "title")) (Zod.field "title" props)
     = inr title ->
     Zod.string_ "content" (Zod.field "content" props) = inr content ->
     Zod.optional (Zod.string_ "analysisType") (Zod.field "analysisType" props)
     = inr analysisType ->
     Zod.optional (Zod.string_ "model") (Zod.field "model" props) = inr model ->
     Zod.optional (Zod.string_ "temperature") (Zod.field "temperature" props)
     = inr temperature ->
     (forall (q : Q) (n : Z),
        (q == inject_Z n)%Q ->
        (-2147483648 <= n <= 2147483647)%Z ->
        Zod.field "maxTokens" props = num q ->
        exists conversation st',
          post_conversations (VObj props) e st = (json (AConversation conversation), st')
          /\ Conversation.maxTokens conversation = Some (Fin q)
          /\ Conversation.title conversation = title
          /\ Conversation.content conversation = content
          /\ Conversation.analysisType conversation = analysisType
          /\ Conversation.model conversation = model
          /\ Conversation.temperature conversation = temperature
          /\ MemStorage.getConversation (uuid e) st' = Some conversation)
     /\ (Zod.field "maxTokens" props = VUndef ->
         exists conversation st',
           post_conversations (VObj props) e st = (json (AConversation conversation), st')
           /\ MemStorage.getConversation (uuid e) st' = Some conversation))
  /\ (Zod.field "maxTokens" props <> VUndef ->
      (forall n, Zod.field "maxTokens" props <> VNum n) ->
      exists issues,
        In {| Zod.path := ["maxTokens"]; Zod.code := Zod.invalid_type "number" |} issues
        /\ post_conversations (VObj props) e st
           = (fail 400 (Zod.ZodError_message issues), st)).
Proof.
  split.
  - intros title content analysisType model temperature H1 H2 H3 H4 H5. split.
    + intros q n Heq Hrange Hfield.
      assert (H6 : Zod.optional (Zod.int32 "maxTokens") (Zod.field "maxTokens" props)
                   = inr (Some (Fin q))).
      { rewrite Hfield. unfold Zod.optional, num.
        now rewrite (int32_accepts "maxTokens" q n Heq Hrange). }
      pose proof (schema_passes props _ _ _ _ _ _ H1 H2 H3 H4 H5 H6) as Hvalid.
      destruct (valid_request_is_stored _ e st _ Hvalid) as [Hres Hget].
      eexists. eexists. split; [exact Hres|].
      repeat (split; [reflexivity|]). exact Hget.
    + intros Hfield.
      assert (H6 : Zod.optional (Zod.int32 "maxTokens") (Zod.field "maxTokens" props)
                   = inr None) by now rewrite Hfield.
      pose proof (schema_passes props _ _ _ _ _ _ H1 H2 H3 H4 H5 H6) as Hvalid.
      destruct (valid_request_is_stored _ e st _ Hvalid) as [Hres Hget].
      eexists. eexists. split; [exact Hres | exact Hget].
  - intros Hdef Hnum.
    destruct (maxTokens_must_be_number props Hdef Hnum) as (issues & Hschema & Hin).
    exists issues. split; [assumption|].
    unfold post_conversations, parse. now rewrite Hschema.
Qed.

End MaxTokens.

(** The table declares 500 as the default of the column, and the in-memory
    store does not apply it: a conversation created without a budget is
    stored without one. *)
Remark omitted_maxTokens_is_stored_absent :
  exists conversation st',
    post_conversations (zm := Sample.messages) (storage := MemStorage_IStorage)
      (VObj [("content", VStr "A: hi. B: hello.")])
      {| uuid := "c-1"; now := 1000 |} MemStorage.empty
    = ({| status := 200; body := AConversation conversation |}, st')
    /\ Conversation.maxTokens conversation = None.
Proof.
  eexists. eexists. split; reflexivity.
Qed.

(** C5, as the claim has it, fails: a budget of 300, which is none of the
    four enumerated values, is accepted and stored. *)
Lemma maxTokens_300_is_stored :
  exists conversation st',
    post_conversations (zm := Sample.messages) (storage := MemStorage_IStorage)
      (VObj [("content", VStr "A: hi. B: hello."); ("maxTokens", num 300)])
      {| uuid := "c-1"; now := 1000 |} MemStorage.empty
    = ({| status := 200; body := AConversation conversation |}, st')
    /\ Conversation.maxTokens conversation = Some (Fin 300)
    /\ MemStorage.getConversation "c-1" st' = Some conversation.
Proof.
  eexists. eexists. split; [reflexivity|]. split; reflexivity.
Qed.

Lemma create_takes_any_int32_maxTokens_witness :
  (-2147483648 <= 300 <= 2147483647)%Z
  /\ exists conversation st',
       post_conversations (zm := Sample.messages) (storage := MemStorage_IStorage)
         (VObj [("title", VStr "Session 1"); ("content", VStr "A: hi. B: hello.");
                ("analysisType", VStr "Conflict Resolution"); ("model", VStr "gpt-4o");
                ("temperature", VStr "0.7"); ("maxTokens", num 300)])
         {| uuid := "c-1"; now := 1000 |} MemStorage.empty
       = (json (AConversation conversation), st')
       /\ Conversation.maxTokens conversation = Some (Fin 300)
       /\ Conversation.model conversation = Some "gpt-4o"
       /\ MemStorage.getConversation "c-1" st' = Some conversation.
Proof.
  assert (H : (-2147483648 <= 300 <= 2147483647)%Z) by lia.
  split; [exact H|].
  destruct (proj1 (proj1 (create_takes_any_int32_maxTokens (zm := Sample.messages)
                            {| uuid := "c-1"; now := 1000 |} MemStorage.empty
                            [("title", VStr "Session 1"); ("content", VStr "A: hi. B: hello.");
                             ("analysisType", VStr "Conflict Resolution");
                             ("model", VStr "gpt-4o");
                             ("temperature", VStr "0.7"); ("maxTokens", num 300)])
                     (Some (Some "Session 1")) "A: hi. B: hello."
                     (Some "Conflict Resolution") (Some "gpt-4o") (Some "0.7")
                     eq_refl eq_refl eq_refl eq_refl eq_refl)
              300%Q 300%Z (Qeq_refl _) H eq_refl)
    as (conversation & st' & Hres & Hmax & _ & _ & _ & Hmodel & _ & Hget).
  exists conversation, st'. repeat split; assumption.
Defined.

End CreateFacts.


(** ** The analysis requestor *)

Module AnalysisFacts.

Import JS OpenAI Routes.

(** Inverts a successful sequence of steps, one step at a time. *)
Ltac step H :=
  unfold bind in H;
  match type of H with
  | match ?m with Ok _ => _ | Throws _ => _ end = Ok _ =>
      let E := fresh "E" in destruct m eqn:E; [|discriminate H]
  end.

(** Closes the case where a step of a sequence has thrown. *)
Ltac thrown := cbn [bind fst]; let H := fresh in intros H; discriminate H.

Section WithRuntime.
Context {rt : Runtime}.

(** *** Clamping one score *)

Lemma clamp_number_cases (n : number) :
  Math_max (Fin 0) (Math_min (Fin 10) n) = NaN
  \/ exists q, Math_max (Fin 0) (Math_min (Fin 10) n) = Fin q /\ (0 <= q /\ q <= 10)%Q.
Proof.
  destruct n as [| | |q]; simpl.
  - now left.
  - right. exists 0%Q. split; [reflexivity|]. split; [apply Qle_refl | discriminate].
  - right. exists 10%Q. split; [reflexivity|]. split; [discriminate | apply Qle_refl].
  - right. destruct (Qle_bool 10 q) eqn:Hhi; simpl.
    + exists 10%Q. split; [reflexivity|]. split; [discriminate | apply Qle_refl].
    + destruct (Qle_bool 0 q) eqn:Hlo.
      * exists q. split; [reflexivity|]. split; [now apply Qle_bool_iff|].
        apply Qlt_le_weak, Qnot_le_lt. intros H. apply Qle_bool_iff in H. congruence.
      * exists 0%Q. split; [reflexivity|]. split; [apply Qle_refl | discriminate].
Qed.

(** Whatever the raw value, the score that comes out is a number. *)
Lemma clamp_Ok (raw v : value) :
  clamp raw = Ok v -> exists n, v = VNum n.
Proof.
  unfold clamp. intros H. step H. injection H as <-. eauto.
Qed.

(** Whenever clamping returns, the score is NaN or lies between 0 and 10. *)
Lemma clamp_cases (raw v : value) :
  clamp raw = Ok v ->
  v = VNum NaN \/ exists q, v = num q /\ (0 <= q /\ q <= 10)%Q.
Proof.
  unfold clamp. intros H. step H. injection H as <-.
  destruct (clamp_number_cases a) as [Hn | (q & Hn & Hq)].
  - left. f_equal. exact Hn.
  - right. exists q. split; [unfold num; f_equal; exact Hn | exact Hq].
Qed.

(** A raw value that is a number other than NaN is clamped into the range. *)
Lemma clamp_number_in_range (n : number) :
  n <> NaN ->
  exists q, clamp (VNum n) = Ok (num q) /\ (0 <= q /\ q <= 10)%Q.
Proof.
  intros Hn. unfold clamp, or_else.
  destruct (truthy (VNum n)); simpl.
  - destruct (clamp_number_cases n) as [H | (q & H & Hq)].
    + destruct n as [| | |q]; simpl in H; try discriminate; [contradiction|].
      destruct (Qle_bool 10 q); simpl in H; [discriminate|].
      destruct (Qle_bool 0 q); discriminate.
    + exists q. split; [unfold num; rewrite <- H; reflexivity | exact Hq].
  - exists 0%Q. split; [reflexivity|]. split; [apply Qle_refl | discriminate].
Qed.

(** A raw value that is missing, [null], [false], the empty string or NaN
    counts as 0. *)
Lemma clamp_falsy (raw : value) :
  truthy raw = false -> clamp raw = Ok (num 0).
Proof.
  intros H. unfold clamp, or_else. rewrite H. reflexivity.
Qed.

(** The raw values -5, 0, 7.3 and 15 give 0, 0, 7.3 and 10. *)
Lemma clamp_examples :
  clamp (num (-5)) = Ok (num 0)
  /\ clamp (num 0) = Ok (num 0)
  /\ clamp (num 7.3) = Ok (num 7.3)
  /\ clamp (num 15) = Ok (num 10)
  /\ clamp VUndef = Ok (num 0).
Proof. repeat split; reflexivity. Qed.

(** A raw value that is a word is neither replaced by 0 nor clamped. *)
Lemma clamp_word : clamp (VStr "high") = Ok (VNum NaN).
Proof. reflexivity. Qed.

(** *** Sanitizing a score in place *)

Lemma Get_after_Put (v v' : value) (k : string) (x : value) :
  Put v k x = Ok v' ->
  Get v' k = Ok x
  /\ (forall k', k' <> k -> Get v' k' = Get v k')
  /\ (forall k', exists y, Get v' k' = Ok y).
Proof.
  destruct v; simpl; try discriminate; intros H; injection H as <-; simpl.
  all: repeat split.
  all: try (now rewrite assoc_get_set_same).
  all: try (intros k' Hne; rewrite assoc_get_set_other; [reflexivity | congruence]).
  all: intros k'; eauto.
Qed.

Lemma sanitize_Ok (k : string) (v v' : value) :
  sanitize k v = Ok v' ->
  (exists raw score,
     Get v k = Ok raw /\ clamp raw = Ok score /\ Get v' k = Ok score)
  /\ (forall k', k' <> k -> Get v' k' = Get v k')
  /\ (forall k', exists y, Get v' k' = Ok y).
Proof.
  unfold sanitize. intros H. step H. step H.
  destruct (Get_after_Put _ _ _ _ H) as (Hk & Hother & Htotal).
  split; [|split; assumption].
  exists a, a0. auto.
Qed.

(** *** The analysis as a whole *)

(** What a successful analysis went through. *)
Lemma analyzeConversation_Ok (openai : provider) (request : ConversationAnalysisRequest)
    (log : calls) (result : value) :
  fst (analyzeConversation openai request log) = Ok result ->
  exists text rest parsed v1 v2 v3,
    openai (length log) request = Completed (Some text :: rest)
    /\ text <> EmptyString
    /\ JSON_parse text = Ok parsed
    /\ sanitize "emotionalIntensity" parsed = Ok v1
    /\ sanitize "resolutionPotential" v1 = Ok v2
    /\ sanitize "communicationQuality" v2 = Ok v3
    /\ sanitize "powerBalance" v3 = Ok result.
Proof.
  unfold analyzeConversation, create.
  destruct (openai (length log) request) as [m|[|[text|] rest]] eqn:Hanswer;
    try (cbn [fst]; discriminate).
  cbn [truthy negb].
  destruct (String.eqb_spec text EmptyString) as [|Hne]; [cbn [negb fst]; discriminate|].
  cbn [negb].
  destruct (JSON_parse text) as [parsed|] eqn:E0; [cbn [bind]|thrown].
  destruct (sanitize "emotionalIntensity" parsed) as [v1|] eqn:E1; [cbn [bind]|thrown].
  destruct (sanitize "resolutionPotential" v1) as [v2|] eqn:E2; [cbn [bind]|thrown].
  destruct (sanitize "communicationQuality" v2) as [v3|] eqn:E3; [cbn [bind]|thrown].
  destruct (sanitize "powerBalance" v3) as [v4|] eqn:E4; [cbn [bind]|thrown].
  cbn [bind fst]. intros H. injection H as <-.
  exists text, rest, parsed, v1, v2, v3. repeat split; auto.
Qed.

(** The analysis that is returned is the object that was read, with each of
    the four scores replaced by the clamping of its raw value, and every
    other property as it was read. *)
Lemma analyzeConversation_result (openai : provider)
    (request : ConversationAnalysisRequest) (log : calls) (result : value) :
  fst (analyzeConversation openai request log) = Ok result ->
  exists text rest parsed,
    openai (length log) request = Completed (Some text :: rest)
    /\ JSON_parse text = Ok parsed
    /\ (forall k, In k scores ->
          exists raw score,
            Get parsed k = Ok raw /\ clamp raw = Ok score /\ Get result k = Ok score)
    /\ (forall k, ~ In k scores -> Get result k = Get parsed k)
    /\ (forall k, exists y, Get result k = Ok y).
Proof.
  intros H.
  destruct (analyzeConversation_Ok _ _ _ _ H)
    as (text & rest & parsed & v1 & v2 & v3 & Hanswer & _ & Hparse & E1 & E2 & E3 & E4).
  destruct (sanitize_Ok _ _ _ E1) as ((r1 & s1 & G1 & C1 & S1) & O1 & _).
  destruct (sanitize_Ok _ _ _ E2) as ((r2 & s2 & G2 & C2 & S2) & O2 & _).
  destruct (sanitize_Ok _ _ _ E3) as ((r3 & s3 & G3 & C3 & S3) & O3 & _).
  destruct (sanitize_Ok _ _ _ E4) as ((r4 & s4 & G4 & C4 & S4) & O4 & T4).
  exists text, rest, parsed. repeat split; auto.
  - intros k [<- | [<- | [<- | [<- | []]]]].
    + exists r1, s1. repeat split; auto.
      rewrite O4, O3, O2 by discriminate. exact S1.
    + exists r2, s2. repeat split; auto.
      * rewrite <- O1 by discriminate. exact G2.
      * rewrite O4, O3 by discriminate. exact S2.
    + exists r3, s3. repeat split; auto.
      * rewrite <- O1, <- O2 by discriminate. exact G3.
      * rewrite O4 by discriminate. exact S3.
    + exists r4, s4. repeat split; auto.
      rewrite <- O1, <- O2, <- O3 by discriminate. exact G4.
  - intros k Hk. unfold scores in Hk. simpl in Hk.
    rewrite O4, O3, O2, O1; [reflexivity| | | |]; intros ->; tauto.
Qed.


(** A reply that is the JSON text [null] is read, and the analysis fails on
    its first property. *)
Lemma null_reply_fails (openai : provider) (request : ConversationAnalysisRequest)
    (log : calls) (text : string) (rest : list (option string)) :
  openai (length log) request = Completed (Some text :: rest) ->
  text <> EmptyString ->
  JSON_parse text = Ok VNull ->
  fst (analyzeConversation openai request log)
  = Throws ("Failed to analyze conversation: " ++ TypeError_read "emotionalIntensity").
Proof.
  intros Hanswer Hne Hparse. unfold analyzeConversation, create. rewrite Hanswer.
  cbn [truthy negb].
  destruct (String.eqb_spec text EmptyString) as [|_]; [contradiction|].
  cbn [negb bind]. rewrite Hparse. reflexivity.
Qed.

(** C1, at a reply the claim covers and the code mishandles. When the reply
    of the remote model is the JSON object whose only member is
    [emotionalIntensity], with the word [high] for its value, the analysis
    that is returned has NaN for that score: the raw value is not a number,
    yet it is not counted as 0, and the score does not lie between 0 and
    10.  The three scores that are missing come out as 0. *)
Theorem worded_score_becomes_NaN (openai : provider)
    (request : ConversationAnalysisRequest) (log : calls)
    (text : string) (rest : list (option string)) :
  openai (length log) request = Completed (Some text :: rest) ->
  text <> EmptyString ->
  JSON_parse text = Ok (VObj [("emotionalIntensity", VStr "high")]) ->
  fst (analyzeConversation openai request log)
  = Ok (VObj [("emotionalIntensity", VNum NaN);
              ("resolutionPotential", num 0);
              ("communicationQuality", num 0);
              ("powerBalance", num 0)]).
Proof.
  intros Hanswer Hne Hparse. unfold analyzeConversation, create. rewrite Hanswer.
  cbn [truthy negb].
  destruct (String.eqb_spec text EmptyString) as [|_]; [contradiction|].
  cbn [negb bind]. rewrite Hparse. reflexivity.
Qed.

End WithRuntime.

Lemma worded_score_becomes_NaN_witness :
  Sample.worded_text <> EmptyString
  /\ JSON_parse (Runtime := Sample.runtime) Sample.worded_text
     = Ok (VObj [("emotionalIntensity", VStr "high")])
  /\ fst (analyzeConversation (rt := Sample.runtime) Sample.wording
            (analysisRequest_of (rt := Sample.runtime) Sample.first) [])
     = Ok (VObj [("emotionalIntensity", VNum NaN);
                 ("resolutionPotential", num 0);
                 ("communicationQuality", num 0);
                 ("powerBalance", num 0)]).
Proof.
  assert (Hne : Sample.worded_text <> EmptyString) by discriminate.
  split; [exact Hne|]. split; [reflexivity|].
  exact (worded_score_becomes_NaN (rt := Sample.runtime) Sample.wording
           (analysisRequest_of (rt := Sample.runtime) Sample.first) []
           Sample.worded_text [] eq_refl Hne eq_refl).
Defined.

End AnalysisFacts.


(** ** Recommendations, stored and read *)

Module RecommendationsFacts.

Import JS OpenAI Routes AnalysisFacts.

Section WithRuntime.
Context {rt : Runtime} {zm : Zod.Messages}.


(** The first analysis of a conversation that had none is the one written. *)
Lemma find_after_set {A : Type} (p : A -> bool) (k : string) (a : A)
    (m : list (string * A)) :
  Array_find p (assoc_values m) = None ->
  p a = true ->
  Array_find p (assoc_values (assoc_set k a m)) = Some a.
Proof.
  unfold Array_find, assoc_values. intros Hnone Ha.
  induction m as [|[k' x] m IH]; simpl in *.
  - now rewrite Ha.
  - destruct (p x) eqn:Hx; [discriminate|].
    destruct (String.eqb k k'); simpl.
    + now rewrite Ha.
    + rewrite Hx. now apply IH.
Qed.


End WithRuntime.


End RecommendationsFacts.


(** ** More on the scores of an analysis *)

Module ScoreFacts.

Import JS OpenAI Routes AnalysisFacts.

Section WithRuntime.
Context {rt : Runtime}.

(** Clamping a finite number: below 0 it gives 0, above 10 it gives 10, and
    in between it gives the number back. *)
Lemma clamp_finite (q : Q) :
  exists q',
    clamp (num q) = Ok (num q')
    /\ (0 <= q' /\ q' <= 10)%Q
    /\ (q < 0 -> q' = 0)%Q
    /\ (0 <= q /\ q <= 10 -> q' == q)%Q
    /\ (10 < q -> q' = 10)%Q.
Proof.
  unfold clamp, or_else, num. cbn [truthy].
  destruct (Qeq_bool q 0) eqn:Hz; cbn [negb ToNumber bind].
  - apply Qeq_bool_iff in Hz. exists 0%Q. cbn.
    split; [reflexivity|]. split; [split; discriminate|].
    split; [reflexivity|]. split; [intros _; now symmetry|].
    intros H. rewrite Hz in H. discriminate H.
  - cbn [Math_min].
    destruct (Qle_bool 10 q) eqn:Hhi.
    + apply Qle_bool_iff in Hhi. exists 10%Q. cbn.
      split; [reflexivity|]. split; [split; discriminate|].
      split; [intros H; exfalso; apply (Qlt_not_le _ _ H);
              apply Qle_trans with 10%Q; [discriminate | exact Hhi]|].
      split; [intros [_ H]; now apply Qle_antisym | reflexivity].
    + assert (Hlt : (q < 10)%Q).
      { apply Qnot_le_lt. intros H. apply Qle_bool_iff in H. congruence. }
      cbn [Math_max].
      destruct (Qle_bool 0 q) eqn:Hlo.
      * apply Qle_bool_iff in Hlo. exists q.
        split; [reflexivity|]. split; [split; [exact Hlo | now apply Qlt_le_weak]|].
        split; [intros H; exfalso; now apply (Qlt_not_le _ _ H)|].
        split; [reflexivity|].
        intros H. exfalso. apply (Qlt_irrefl 10). now apply Qlt_trans with q.
      * assert (Hneg : (q < 0)%Q).
        { apply Qnot_le_lt. intros H. apply Qle_bool_iff in H. congruence. }
        exists 0%Q.
        split; [reflexivity|]. split; [split; discriminate|].
        split; [reflexivity|].
        split; [intros [H _]; exfalso; now apply (Qlt_not_le _ _ Hneg)|].
        intros H. exfalso. apply (Qlt_irrefl 10).
        apply Qlt_trans with q; [exact H|]. now apply Qlt_trans with 0%Q.
Qed.

(** X1. In the analysis that is returned, a score whose raw value in the
    reply is a finite number is that number brought into the range: 0 when
    it is negative, 10 when it exceeds 10, the number itself otherwise; a
    score whose raw value is missing, [null], [false], 0 or the empty string
    is 0. *)
Theorem numeric_score_is_clamped (openai : provider)
    (request : ConversationAnalysisRequest) (log : calls) (result parsed raw : value)
    (text : string) (rest : list (option string)) (k : string) :
  openai (length log) request = Completed (Some text :: rest) ->
  JSON_parse text = Ok parsed ->
  fst (analyzeConversation openai request log) = Ok result ->
  In k scores ->
  Get parsed k = Ok raw ->
  (truthy raw = false -> Get result k = Ok (num 0))
  /\ (forall q, raw = num q ->
        exists q',
          Get result k = Ok (num q')
          /\ (0 <= q' /\ q' <= 10)%Q
          /\ (q < 0 -> q' = 0)%Q
          /\ (0 <= q /\ q <= 10 -> q' == q)%Q
          /\ (10 < q -> q' = 10)%Q).
Proof.
  intros Hanswer Hparse Hresult Hk Hraw.
  destruct (analyzeConversation_result _ _ _ _ Hresult)
    as (text' & rest' & parsed' & Hanswer' & Hparse' & Hscores & _).
  rewrite Hanswer in Hanswer'. injection Hanswer' as <- <-.
  rewrite Hparse in Hparse'. injection Hparse' as <-.
  destruct (Hscores k Hk) as (raw' & score & Hraw' & Hclamp & Hget).
  rewrite Hraw in Hraw'. injection Hraw' as <-.
  split.
  - intros Hfalsy. rewrite (clamp_falsy raw Hfalsy) in Hclamp.
    injection Hclamp as <-. exact Hget.
  - intros q ->.
    destruct (clamp_finite q) as (q' & Hq' & Hprops).
    rewrite Hq' in Hclamp. injection Hclamp as <-.
    exists q'. split; [exact Hget | exact Hprops].
Qed.

(** X2. The analysis that is returned is the object read from the reply with
    its four scores replaced: every other property, among them the
    recommendations and the full text, is the one of the reply, and each of
    the four scores is a number, NaN or within 0 and 10. *)
Theorem analysis_is_the_reply_with_scores_replaced (openai : provider)
    (request : ConversationAnalysisRequest) (log : calls) (result parsed : value)
    (text : string) (rest : list (option string)) :
  openai (length log) request = Completed (Some text :: rest) ->
  JSON_parse text = Ok parsed ->
  fst (analyzeConversation openai request log) = Ok result ->
  (forall k, ~ In k scores -> Get result k = Get parsed k)
  /\ (forall k, In k scores ->
        exists n, Get result k = Ok (VNum n)
                  /\ (n = NaN \/ exists q, n = Fin q /\ (0 <= q /\ q <= 10)%Q)).
Proof.
  intros Hanswer Hparse Hresult.
  destruct (analyzeConversation_result _ _ _ _ Hresult)
    as (text' & rest' & parsed' & Hanswer' & Hparse' & Hscores & Hother & _).
  rewrite Hanswer in Hanswer'. injection Hanswer' as <- <-.
  rewrite Hparse in Hparse'. injection Hparse' as <-.
  split; [exact Hother|].
  intros k Hk.
  destruct (Hscores k Hk) as (raw & score & _ & Hclamp & Hget).
  destruct (clamp_cases raw score Hclamp) as [-> | (q & -> & Hq)].
  - exists NaN. split; [exact Hget | now left].
  - exists (Fin q). split; [exact Hget|]. right. now exists q.
Qed.

(** X3. A reply that is JSON but is neither an object nor an array ([null],
    a boolean, a number, a string) makes the analysis fail: nothing is
    returned for it. *)
Theorem reply_must_be_an_object (openai : provider)
    (request : ConversationAnalysisRequest) (log : calls) (parsed : value)
    (text : string) (rest : list (option string)) :
  openai (length log) request = Completed (Some text :: rest) ->
  JSON_parse text = Ok parsed ->
  (forall props, parsed <> VObj props) ->
  (forall items props, parsed <> VArr items props) ->
  exists cause,
    analyzeConversation openai request log
    = (Throws ("Failed to analyze conversation: " ++ cause), (log ++ [request])%list).
Proof.
  intros Hanswer Hparse Hobj Harr.
  unfold analyzeConversation, create. rewrite Hanswer. cbn [truthy].
  destruct (String.eqb text EmptyString); cbn [negb].
  - eexists. reflexivity.
  - rewrite Hparse.
    destruct parsed as [| |b|n|s|items props|props];
      try (eexists; reflexivity).
    + exfalso. now apply (Harr items props).
    + exfalso. now apply (Hobj props).
Qed.

End WithRuntime.

Lemma numeric_score_is_clamped_witness :
  exists result q',
    fst (analyzeConversation (rt := Replies.runtime) Replies.scoring
           (analysisRequest_of (rt := Replies.runtime) Sample.first) []) = Ok result
    /\ Get Replies.scored "emotionalIntensity" = Ok (num 15)
    /\ Get result "emotionalIntensity" = Ok (num q')
    /\ q' = 10%Q.
Proof.
  eexists.
  destruct (proj2 (numeric_score_is_clamped (rt := Replies.runtime) Replies.scoring
                     (analysisRequest_of (rt := Replies.runtime) Sample.first) []
                     _ Replies.scored (num 15) Replies.scored_text []
                     "emotionalIntensity" eq_refl eq_refl eq_refl
                     (or_introl eq_refl) eq_refl) 15%Q eq_refl)
    as (q' & Hget & _ & _ & _ & Hhigh).
  exists q'. split; [reflexivity|]. split; [reflexivity|].
  split; [exact Hget|]. apply Hhigh. reflexivity.
Defined.

Lemma reply_must_be_an_object_witness :
  JSON_parse (Runtime := Replies.runtime) "null" = Ok VNull
  /\ exists cause,
       analyzeConversation (rt := Replies.runtime) Replies.nulling
         (analysisRequest_of (rt := Replies.runtime) Sample.first) []
       = (Throws ("Failed to analyze conversation: " ++ cause),
          [analysisRequest_of (rt := Replies.runtime) Sample.first]).
Proof.
  split; [reflexivity|].
  apply (reply_must_be_an_object (rt := Replies.runtime) Replies.nulling
           (analysisRequest_of (rt := Replies.runtime) Sample.first) []
           VNull "null" [] eq_refl eq_refl); intros; discriminate.
Defined.

Lemma analysis_is_the_reply_with_scores_replaced_witness :
  exists result,
    fst (analyzeConversation (rt := Sample.runtime) Sample.advising
           (analysisRequest_of (rt := Sample.runtime) Sample.first) []) = Ok result
    /\ Get result "rawAnalysis" = Ok (VStr "calm").
Proof.
  eexists. split; [reflexivity|].
  rewrite (proj1 (analysis_is_the_reply_with_scores_replaced (rt := Sample.runtime)
                    Sample.advising
                    (analysisRequest_of (rt := Sample.runtime) Sample.first) []
                    _ Sample.advice Sample.advice_text [] eq_refl eq_refl eq_refl)
             "rawAnalysis").
  - reflexivity.
  - intros [H | [H | [H | [H | []]]]]; discriminate H.
Defined.

End ScoreFacts.


(** ** More on the analyze handler *)

Module AnalyzeFacts.

Import JS OpenAI Routes AnalysisFacts.

(** Settles the five facts stated of an outcome of the handler that is not
    a success. *)
Ltac outcome :=
  cbn [fst snd status body fail json];
  split; [first [left; reflexivity | right; left; reflexivity | right; right; reflexivity]|];
  split; [let H := fresh in intros H;
          first [split; [reflexivity | eexists; reflexivity]
                | exfalso; apply H; reflexivity]|];
  split; [let H := fresh in intros H; discriminate H|];
  split; [first [left; reflexivity | right; eexists; reflexivity]|];
  let H := fresh in intros H; first [reflexivity | discriminate H].

Section AnyStorage.
Context {rt : Runtime} {zm : Zod.Messages} {S : Type} {storage : IStorage S}.
Variable openai : provider.

(** X4. For a stored conversation, when the call to the remote model throws,
    or returns no choice at all, the analyze handler answers 500 with the
    message of the failure after the words [Failed to analyze conversation],
    the store is left as it was, and the remote model has received that one
    call. *)
Theorem provider_failure_is_reported (id : string) (body : value) (e : entropy)
    (st : S) (log : calls) (conversation : Conversation.t) :
  getConversation id st = Ok (Some conversation) ->
  (forall message,
     openai (length log) (analysisRequest_of conversation) = Rejected message ->
     post_analyze openai id body e st log
     = (fail 500 ("Failed to analyze conversation: " ++ message), st,
        (log ++ [analysisRequest_of conversation])%list))
  /\ (openai (length log) (analysisRequest_of conversation) = Completed [] ->
      post_analyze openai id body e st log
      = (fail 500 ("Failed to analyze conversation: " ++ TypeError_choices), st,
         (log ++ [analysisRequest_of conversation])%list)).
Proof.
  intros Hstored. unfold post_analyze. rewrite Hstored.
  unfold analyzeConversation, create.
  split; [intros message Hanswer | intros Hanswer]; rewrite Hanswer; reflexivity.
Qed.

(** X5. The analyze handler answers 200, 404 or 500.  Unless it answers 200
    the store is left as it was and the body is a message.  When it answers
    200, the conversation was found, its analysis succeeded, the record made
    of it was accepted by the storage, the store is the one the storage left,
    and the body holds the analysis the storage recorded together with the
    analysis the requestor returned.  In every case the remote model has
    received at most one more call, none when the answer is 404. *)
Theorem analyze_outcomes (id : string) (body : value) (e : entropy)
    (st : S) (log : calls) :
  let res := fst (fst (post_analyze openai id body e st log)) in
  let st' := snd (fst (post_analyze openai id body e st log)) in
  let log' := snd (post_analyze openai id body e st log) in
  (status res = 200%Z \/ status res = 404%Z \/ status res = 500%Z)
  /\ (status res <> 200%Z ->
      st' = st /\ exists message, Routes.body res = Message message)
  /\ (status res = 200%Z ->
      exists conversation result insertAnalysis analysis,
        getConversation id st = Ok (Some conversation)
        /\ fst (analyzeConversation openai (analysisRequest_of conversation) log)
           = Ok result
        /\ insertAnalysis_of conversation result = Ok insertAnalysis
        /\ createAnalysis insertAnalysis e st = Ok (analysis, st')
        /\ Routes.body res = Analyzed analysis result
        /\ log' = (log ++ [analysisRequest_of conversation])%list)
  /\ (log' = log \/ exists request, log' = (log ++ [request])%list)
  /\ (status res = 404%Z -> log' = log).
Proof.
  unfold post_analyze.
  destruct (getConversation id st) as [[conversation|]|message].
  - pose proof (RoutesFacts.analyzeConversation_calls openai
                  (analysisRequest_of conversation) log) as Hlog.
    destruct (analyzeConversation openai (analysisRequest_of conversation) log)
      as [analyzed log'] eqn:Hanalyzed.
    cbn [snd] in Hlog. subst log'.
    destruct analyzed as [analysisResult|message]; cbn [bind].
    + destruct (insertAnalysis_of conversation analysisResult) as [insertAnalysis|message]
        eqn:Hinsert; cbn [bind].
      * destruct (createAnalysis insertAnalysis e st) as [[analysis st']|message]
          eqn:Hcreated; cbn [bind].
        -- cbn [fst snd status Routes.body json].
           split; [now left|].
           split; [intros H; exfalso; now apply H|].
           split; [|split; [right; eexists; reflexivity | intros H; discriminate H]].
           intros _. exists conversation, analysisResult, insertAnalysis, analysis.
           rewrite Hanalyzed. repeat split; assumption.
        -- outcome.
      * outcome.
    + outcome.
  - outcome.
  - outcome.
Qed.

End AnyStorage.

Section InMemory.
Context {rt : Runtime} {zm : Zod.Messages}.
Variable openai : provider.

(** The record handed to the store for a returned analysis, field by field. *)
Lemma insertAnalysis_of_result (request : ConversationAnalysisRequest) (log : calls)
    (conversation : Conversation.t) (result : value) :
  fst (analyzeConversation openai request log) = Ok result ->
  exists x1 x2 x3 x4 x5 x6 n1 n2 n3 n4,
    Get result "emotionalTone" = Ok x1
    /\ Get result "powerDynamics" = Ok x2
    /\ Get result "communicationPatterns" = Ok x3
    /\ Get result "relationshipInsights" = Ok x4
    /\ Get result "recommendations" = Ok x5
    /\ Get result "rawAnalysis" = Ok x6
    /\ Get result "emotionalIntensity" = Ok (VNum n1)
    /\ Get result "resolutionPotential" = Ok (VNum n2)
    /\ Get result "communicationQuality" = Ok (VNum n3)
    /\ Get result "powerBalance" = Ok (VNum n4)
    /\ insertAnalysis_of conversation result
       = Ok {| InsertAnalysis.conversationId := Conversation.id conversation;
               InsertAnalysis.emotionalTone := x1;
               InsertAnalysis.powerDynamics := x2;
               InsertAnalysis.communicationPatterns := x3;
               InsertAnalysis.relationshipInsights := x4;
               InsertAnalysis.recommendations :=
                 match JSON_stringify x5 with
                 | Some text => VStr text
                 | None => VUndef
                 end;
               InsertAnalysis.emotionalIntensity := Number_toString n1;
               InsertAnalysis.resolutionPotential := Number_toString n2;
               InsertAnalysis.communicationQuality := Number_toString n3;
               InsertAnalysis.powerBalance := Number_toString n4;
               InsertAnalysis.rawAnalysis := x6 |}.
Proof.
  intros H.
  destruct (analyzeConversation_result _ _ _ _ H)
    as (text & rest & parsed & _ & _ & Hscores & _ & Htotal).
  assert (Hscore : forall k, In k scores -> exists n, Get result k = Ok (VNum n)).
  { intros k Hk. destruct (Hscores k Hk) as (raw & score & _ & Hclamp & Hget).
    destruct (clamp_Ok _ _ Hclamp) as [n ->]. eauto. }
  unfold scores in Hscore.
  destruct (Hscore "emotionalIntensity") as [n1 S1]; [simpl; tauto|].
  destruct (Hscore "resolutionPotential") as [n2 S2]; [simpl; tauto|].
  destruct (Hscore "communicationQuality") as [n3 S3]; [simpl; tauto|].
  destruct (Hscore "powerBalance") as [n4 S4]; [simpl; tauto|].
  destruct (Htotal "emotionalTone") as [x1 G1].
  destruct (Htotal "powerDynamics") as [x2 G2].
  destruct (Htotal "communicationPatterns") as [x3 G3].
  destruct (Htotal "relationshipInsights") as [x4 G4].
  destruct (Htotal "recommendations") as [x5 G5].
  destruct (Htotal "rawAnalysis") as [x6 G6].
  exists x1, x2, x3, x4, x5, x6, n1, n2, n3, n4.
  repeat (split; [assumption|]).
  unfold insertAnalysis_of.
  rewrite G1, G2, G3, G4, G5, S1, S2, S3, S4, G6. reflexivity.
Qed.

(** X6. When the analysis of a stored conversation succeeds and the
    identifier drawn is new, the handler answers 200 and adds exactly one
    analysis, at the end of the collection, whether or not the conversation
    already has one.  The record carries the identifier and the time drawn,
    the identifier of the conversation, the full text of the analysis, and
    each score as the text of the number returned.  Conversations and users
    are left as they were. *)
Theorem analyze_adds_one_record (id : string) (body : value) (e : entropy)
    (st : MemStorage.t) (log : calls) (conversation : Conversation.t) (result : value) :
  MemStorage.getConversation id st = Some conversation ->
  fst (analyzeConversation openai (analysisRequest_of conversation) log) = Ok result ->
  assoc_get (uuid e) (MemStorage.analyses st) = None ->
  exists analysis st',
    post_analyze openai id body e st log
    = (json (Analyzed analysis result), st',
       (log ++ [analysisRequest_of conversation])%list)
    /\ MemStorage.analyses st' = (MemStorage.analyses st ++ [(uuid e, analysis)])%list
    /\ MemStorage.conversations st' = MemStorage.conversations st
    /\ MemStorage.users st' = MemStorage.users st
    /\ Analysis.id analysis = uuid e
    /\ Analysis.createdAt analysis = now e
    /\ Analysis.conversationId analysis = Conversation.id conversation
    /\ Get result "rawAnalysis" = Ok (Analysis.rawAnalysis analysis)
    /\ (exists n1 n2 n3 n4,
          Get result "emotionalIntensity" = Ok (VNum n1)
          /\ Get result "resolutionPotential" = Ok (VNum n2)
          /\ Get result "communicationQuality" = Ok (VNum n3)
          /\ Get result "powerBalance" = Ok (VNum n4)
          /\ Analysis.emotionalIntensity analysis = Number_toString n1
          /\ Analysis.resolutionPotential analysis = Number_toString n2
          /\ Analysis.communicationQuality analysis = Number_toString n3
          /\ Analysis.powerBalance analysis = Number_toString n4).
Proof.
  intros Hstored Hresult Hfresh.
  destruct (insertAnalysis_of_result _ _ conversation _ Hresult)
    as (x1 & x2 & x3 & x4 & x5 & x6 & n1 & n2 & n3 & n4
        & G1 & G2 & G3 & G4 & G5 & G6 & S1 & S2 & S3 & S4 & Hinsert).
  pose proof (RoutesFacts.analyzeConversation_calls openai
                (analysisRequest_of conversation) log) as Hcalls.
  eexists. eexists. split.
  - unfold post_analyze. cbn [getConversation MemStorage_IStorage]. rewrite Hstored.
    destruct (analyzeConversation openai (analysisRequest_of conversation) log)
      as [analyzed log'].
    cbn [fst snd] in Hresult, Hcalls. subst analyzed log'.
    cbn [bind]. rewrite Hinsert. reflexivity.
  - cbn. rewrite (assoc_set_fresh _ _ _ Hfresh).
    repeat (split; [reflexivity|]).
    split; [exact G6|].
    exists n1, n2, n3, n4. repeat (split; [assumption|]).
    repeat split.
Qed.

End InMemory.

Lemma provider_failure_is_reported_witness :
  getConversation "c-1" Sample.one = Ok (Some Sample.first)
  /\ post_analyze (rt := Replies.runtime) Replies.refusing "c-1" VUndef
       {| uuid := "a-1"; now := 3000 |} Sample.one []
     = (fail 500 "Failed to analyze conversation: 401 Incorrect API key provided",
        Sample.one, [analysisRequest_of (rt := Replies.runtime) Sample.first]).
Proof.
  split; [reflexivity|].
  exact (proj1 (provider_failure_is_reported (rt := Replies.runtime)
                  (storage := MemStorage_IStorage) Replies.refusing "c-1" VUndef
                  {| uuid := "a-1"; now := 3000 |} Sample.one [] Sample.first eq_refl)
           "401 Incorrect API key provided" eq_refl).
Defined.

Lemma analyze_outcomes_witness :
  status (fst (fst (post_analyze (rt := Replies.runtime) (storage := MemStorage_IStorage)
                      Replies.silent "c-1" VUndef
                      {| uuid := "a-1"; now := 3000 |} Sample.one []))) <> 200%Z
  /\ snd (fst (post_analyze (rt := Replies.runtime) (storage := MemStorage_IStorage)
                 Replies.silent "c-1" VUndef
                 {| uuid := "a-1"; now := 3000 |} Sample.one []))
     = Sample.one.
Proof.
  assert (H : status (fst (fst (post_analyze (rt := Replies.runtime)
                                  (storage := MemStorage_IStorage)
                                  Replies.silent "c-1" VUndef
                                  {| uuid := "a-1"; now := 3000 |} Sample.one [])))
              <> 200%Z) by discriminate.
  split; [exact H|].
  exact (proj1 (proj1 (proj2 (analyze_outcomes (rt := Replies.runtime)
                                (storage := MemStorage_IStorage) Replies.silent "c-1"
                                VUndef {| uuid := "a-1"; now := 3000 |} Sample.one []))
                  H)).
Defined.

Lemma analyze_adds_one_record_witness :
  MemStorage.getConversation "c-1" (snd (fst Replies.analyzed)) = Some Sample.first
  /\ assoc_get "a-2" (MemStorage.analyses (snd (fst Replies.analyzed))) = None
  /\ exists analysis st',
       fst (post_analyze (rt := Replies.runtime) (storage := MemStorage_IStorage)
              Replies.scoring "c-1" VUndef {| uuid := "a-2"; now := 4000 |}
              (snd (fst Replies.analyzed)) (snd Replies.analyzed))
       = (json (Analyzed analysis
                  (VObj [("emotionalIntensity", num 10);
                         ("resolutionPotential", num 0);
                         ("communicationQuality", num 7.3);
                         ("powerBalance", num 0);
                         ("recommendations", VArr [VStr "breathe"] []);
                         ("rawAnalysis", VStr "calm")])), st')
       /\ length (MemStorage.analyses st') = 2%nat
       /\ Analysis.conversationId analysis = "c-1".
Proof.
  split; [reflexivity|]. split; [reflexivity|].
  destruct (analyze_adds_one_record (rt := Replies.runtime) Replies.scoring "c-1" VUndef
              {| uuid := "a-2"; now := 4000 |} (snd (fst Replies.analyzed))
              (snd Replies.analyzed) Sample.first _ eq_refl eq_refl eq_refl)
    as (analysis & st' & Hres & Hanalyses & _ & _ & _ & _ & Hcid & _).
  exists analysis, st'. rewrite Hres. split; [reflexivity|].
  split; [rewrite Hanalyses; reflexivity | exact Hcid].
Defined.

End AnalyzeFacts.


(** ** More on the listings *)

Module ListingFacts.

Import JS Routes.

(** A record created after all the others goes to the head of the sorted list. *)
Lemma Array_sort_newest {A : Type} (key : A -> Z) (x : A) (l : list A) :
  (forall y, In y l -> (key y < key x)%Z) ->
  Array_sort (newest_first key) (l ++ [x])%list
  = x :: Array_sort (newest_first key) l.
Proof.
  induction l as [|y l IH]; intros Hnew; [reflexivity|].
  change (Array_sort (newest_first key) ((y :: l) ++ [x])%list)
    with (sort_insert (newest_first key) y (Array_sort (newest_first key) (l ++ [x])%list)).
  rewrite IH by (intros z Hz; apply Hnew; now right).
  cbn [sort_insert]. unfold newest_first at 1.
  destruct (Z.leb_spec (key x - key y) 0) as [Hle|_]; [|reflexivity].
  specialize (Hnew y (or_introl eq_refl)). lia.
Qed.

Section InMemory.
Context {zm : Zod.Messages}.

(** X7. A conversation that is created under a new identifier, at a time
    later than that of every stored conversation, is the first of the
    listing, the listing being otherwise what it was; and it is what the
    lookup of its identifier returns. *)
Theorem new_conversation_heads_the_listing (body : value) (e : entropy)
    (st : MemStorage.t) (validatedData : InsertConversation.t) :
  insertConversationSchema body = inr validatedData ->
  MemStorage.getConversation (uuid e) st = None ->
  (forall c, In c (MemStorage.getConversations st) -> (Conversation.createdAt c < now e)%Z) ->
  exists conversation st',
    post_conversations body e st = (json (AConversation conversation), st')
    /\ get_conversations st'
       = json (Conversations (conversation :: MemStorage.getConversations st))
    /\ get_conversation (uuid e) st' = json (AConversation conversation).
Proof.
  intros Hvalid Hfresh Hnew.
  eexists. eexists. split; [|split].
  - unfold post_conversations, parse. rewrite Hvalid. reflexivity.
  - unfold get_conversations. cbn [getConversations MemStorage_IStorage].
    unfold MemStorage.getConversations, MemStorage.createConversation.
    cbn [snd MemStorage.conversations].
    unfold MemStorage.getConversation in Hfresh.
    rewrite (assoc_set_fresh _ _ _ Hfresh).
    unfold assoc_values. rewrite map_app. cbn [map snd].
    rewrite Array_sort_newest; [reflexivity|].
    intros y Hy. cbn [Conversation.createdAt]. apply Hnew.
    unfold MemStorage.getConversations, assoc_values.
    eapply Permutation_in; [|exact Hy].
    symmetry. apply Array_sort_Permutation.
  - unfold get_conversation. cbn [getConversation MemStorage_IStorage].
    unfold MemStorage.getConversation, MemStorage.createConversation.
    cbn [snd MemStorage.conversations]. now rewrite assoc_get_set_same.
Qed.

End InMemory.

(** X8. The two listings are stable: the records created at one same time
    are listed in the order in which the store holds them. *)
Theorem listings_keep_the_order_of_ties (st : MemStorage.t) (t : Z) :
  filter (fun c => (Conversation.createdAt c =? t)%Z) (MemStorage.getConversations st)
  = filter (fun c => (Conversation.createdAt c =? t)%Z)
      (assoc_values (MemStorage.conversations st))
  /\ filter (fun a => (Analysis.createdAt a =? t)%Z) (MemStorage.getAnalyses st)
     = filter (fun a => (Analysis.createdAt a =? t)%Z)
         (assoc_values (MemStorage.analyses st)).
Proof.
  split; apply Array_sort_stable.
Qed.

(** What [find] returns satisfies the test, and it returns nothing only when
    nothing does. *)
Lemma Array_find_spec {A : Type} (p : A -> bool) (l : list A) :
  match Array_find p l with
  | Some x => In x l /\ p x = true
  | None => forall x, In x l -> p x = false
  end.
Proof.
  unfold Array_find. destruct (find p l) as [x|] eqn:E.
  - now apply find_some in E.
  - intros x. now apply find_none.
Qed.

(** X9. The listing of the analyses with their conversations holds the
    analyses of [getAnalyses], in that order.  Each is joined with a stored
    conversation whose identifier is the one the analysis refers to, and is
    left without a conversation only when the store holds none with that
    identifier. *)
Theorem analyses_are_joined_by_conversation_id (st : MemStorage.t) :
  exists joined,
    get_analyses st = json (Analyses joined)
    /\ map fst joined = MemStorage.getAnalyses st
    /\ (forall a oc,
          In (a, oc) joined ->
          match oc with
          | Some c =>
              Conversation.id c = Analysis.conversationId a
              /\ In c (assoc_values (MemStorage.conversations st))
          | None =>
              forall c, In c (assoc_values (MemStorage.conversations st)) ->
                        Conversation.id c <> Analysis.conversationId a
          end).
Proof.
  unfold get_analyses. cbn [getAnalyses getConversations MemStorage_IStorage bind].
  eexists. split; [reflexivity|]. split.
  - rewrite map_map. cbn [fst]. apply map_id.
  - intros a oc Hin. apply in_map_iff in Hin. destruct Hin as (a' & Heq & _).
    injection Heq as -> <-.
    pose proof (Array_find_spec
                  (fun c => String.eqb (Conversation.id c) (Analysis.conversationId a))
                  (MemStorage.getConversations st)) as Hfind.
    destruct (Array_find _ (MemStorage.getConversations st)) as [c|].
    + destruct Hfind as [Hc Hid]. split; [now apply String.eqb_eq|].
      eapply Permutation_in; [|exact Hc]. apply Array_sort_Permutation.
    + intros c Hc Hid.
      assert (Hc' : In c (MemStorage.getConversations st)).
      { eapply Permutation_in; [|exact Hc]. symmetry. apply Array_sort_Permutation. }
      specialize (Hfind c Hc'). cbn beta in Hfind.
      rewrite Hid, String.eqb_refl in Hfind. discriminate.
Qed.

Lemma new_conversation_heads_the_listing_witness :
  MemStorage.getConversation "c-2" Sample.one = None
  /\ get_conversations (storage := MemStorage_IStorage) Sample.two
     = json (Conversations
               (fst (MemStorage.createConversation Sample.hello
                       {| uuid := "c-2"; now := 2000 |} Sample.one)
                :: MemStorage.getConversations Sample.one)).
Proof.
  split; [reflexivity|].
  destruct (new_conversation_heads_the_listing (zm := Sample.messages)
              (VObj [("content", VStr "A: hi. B: hello."); ("model", VStr "gpt-4o");
                     ("temperature", VStr "0.7"); ("maxTokens", num 500)])
              {| uuid := "c-2"; now := 2000 |} Sample.one Sample.hello
              eq_refl eq_refl) as (conversation & st' & Hres & Hlist & _).
  - intros c [<- | []]. reflexivity.
  - injection Hres as <- <-. exact Hlist.
Defined.

Lemma analyses_are_joined_by_conversation_id_witness :
  exists a c,
    get_analyses (storage := MemStorage_IStorage) (snd (fst Replies.analyzed))
    = json (Analyses [(a, Some c)])
    /\ Conversation.id c = Analysis.conversationId a.
Proof.
  destruct (analyses_are_joined_by_conversation_id (snd (fst Replies.analyzed)))
    as (joined & Hres & _ & Hjoin).
  eexists. eexists. split; [reflexivity|].
  cbn in Hres. injection Hres as <-.
  exact (proj1 (Hjoin _ (Some _) (or_introl eq_refl))).
Defined.

End ListingFacts.


(** ** What holds of every store the server goes through *)

Module InvariantFacts.

Import JS OpenAI Routes AnalysisFacts.

Section Tables.
Context {V : Type}.
Implicit Types (k : string) (v : V) (m : list (string * V)).

Lemma assoc_get_In k v m : assoc_get k m = Some v -> In (k, v) m.
Proof.
  induction m as [|[k' v'] m IH]; simpl; [discriminate|].
  destruct (String.eqb_spec k k') as [->|_].
  - intros H. injection H as ->. now left.
  - intros H. right. now apply IH.
Qed.

Lemma In_assoc_set k v k' v' m :
  In (k', v') (assoc_set k v m) -> (k', v') = (k, v) \/ In (k', v') m.
Proof.
  induction m as [|[k0 v0] m IH]; simpl.
  - intros [H | []]. now left.
  - destruct (String.eqb k k0).
    + intros [H | H]; [now left | right; now right].
    + intros [H | H]; [right; now left|].
      destruct (IH H) as [Heq | Hin]; [now left | right; now right].
Qed.

(** Writing a table does not remove a key from it. *)
Lemma assoc_set_keeps_keys k v k' v' m :
  In (k', v') m -> exists v'', In (k', v'') (assoc_set k v m).
Proof.
  induction m as [|[k0 v0] m IH]; simpl; [intros []|].
  destruct (String.eqb_spec k k0) as [->|_].
  - intros [H | H].
    + injection H as -> ->. exists v. now left.
    + exists v'. now right.
  - intros [H | H].
    + exists v'. now left.
    + destruct (IH H) as [v'' Hv'']. exists v''. now right.
Qed.

Lemma assoc_set_keys k v k' m :
  In k' (map fst (assoc_set k v m)) -> k' = k \/ In k' (map fst m).
Proof.
  induction m as [|[k0 v0] m IH]; simpl.
  - intros [H | []]. now left.
  - destruct (String.eqb_spec k k0) as [->|_]; simpl.
    + intros [H | H]; [now left | right; now right].
    + intros [H | H]; [right; now left|].
      destruct (IH H) as [Heq | Hin]; [now left | right; now right].
Qed.

Lemma assoc_set_NoDup k v m :
  NoDup (map fst m) -> NoDup (map fst (assoc_set k v m)).
Proof.
  induction m as [|[k0 v0] m IH]; simpl; intros Hnd.
  - constructor; [intros [] | constructor].
  - inversion Hnd as [|? ? Hnotin Hnd']; subst.
    destruct (String.eqb_spec k k0) as [->|Hne]; simpl.
    + now constructor.
    + constructor; [|now apply IH].
      intros Hin. apply assoc_set_keys in Hin. destruct Hin as [-> | Hin]; auto.
Qed.

(** In a table without repeated keys, an entry is what its key finds. *)
Lemma In_assoc_get k v m :
  NoDup (map fst m) -> In (k, v) m -> assoc_get k m = Some v.
Proof.
  induction m as [|[k0 v0] m IH]; simpl; intros Hnd; [intros []|].
  inversion Hnd as [|? ? Hnotin Hnd']; subst.
  intros [H | H].
  - injection H as -> ->. now rewrite String.eqb_refl.
  - destruct (String.eqb_spec k k0) as [->|_]; [|now apply IH].
    exfalso. apply Hnotin. apply in_map_iff. now exists (k0, v).
Qed.
End Tables.

Section WithRuntime.
Context {rt : Runtime} {zm : Zod.Messages}.

Lemma insertAnalysis_of_conversationId (conversation : Conversation.t)
    (analysisResult : value) (insertAnalysis : InsertAnalysis.t) :
  insertAnalysis_of conversation analysisResult = Ok insertAnalysis ->
  InsertAnalysis.conversationId insertAnalysis = Conversation.id conversation.
Proof.
  unfold insertAnalysis_of. intros H.
  do 14 step H. injection H as <-. reflexivity.
Qed.

(** The store a creation leaves: the one it found, or that of the in-memory
    store's operation. *)
Lemma post_conversations_store (body : value) (e : entropy) (st : MemStorage.t) :
  snd (post_conversations body e st) = st
  \/ exists validatedData,
       snd (post_conversations body e st)
       = snd (MemStorage.createConversation validatedData e st).
Proof.
  unfold post_conversations, parse.
  destruct (insertConversationSchema body) as [issues|validatedData]; [now left|].
  right. now exists validatedData.
Qed.

Lemma post_analyze_store (openai : provider) (id : string) (body : value)
    (e : entropy) (st : MemStorage.t) (log : calls) :
  snd (fst (post_analyze openai id body e st log)) = st
  \/ exists conversation insertAnalysis,
       MemStorage.getConversation id st = Some conversation
       /\ InsertAnalysis.conversationId insertAnalysis = Conversation.id conversation
       /\ snd (fst (post_analyze openai id body e st log))
          = snd (MemStorage.createAnalysis insertAnalysis e st).
Proof.
  unfold post_analyze. cbn [getConversation MemStorage_IStorage].
  destruct (MemStorage.getConversation id st) as [conversation|] eqn:Hstored; [|now left].
  destruct (analyzeConversation openai (analysisRequest_of conversation) log)
    as [[analysisResult|message] log']; cbn [bind]; [|now left].
  destruct (insertAnalysis_of conversation analysisResult) as [insertAnalysis|message]
    eqn:Hinsert; cbn [bind]; [|now left].
  right. exists conversation, insertAnalysis.
  split; [reflexivity|]. split; [|reflexivity].
  now apply insertAnalysis_of_conversationId with analysisResult.
Qed.

Lemma createConversation_consistent (validatedData : InsertConversation.t)
    (e : entropy) (st : MemStorage.t) :
  keyed_by_id st /\ distinct_keys st /\ analyses_refer_to_conversations st ->
  let st' := snd (MemStorage.createConversation validatedData e st) in
  keyed_by_id st' /\ distinct_keys st' /\ analyses_refer_to_conversations st'.
Proof.
  intros ([Hkc Hka] & [Hdc Hda] & Href). cbn.
  split; [split|split; [split|]]; cbn.
  - intros k c Hin. apply In_assoc_set in Hin. destruct Hin as [Heq | Hin].
    + injection Heq as -> ->. reflexivity.
    + now apply Hkc.
  - exact Hka.
  - now apply assoc_set_NoDup.
  - exact Hda.
  - intros k a Hin. destruct (Href k a Hin) as [c Hc].
    eapply assoc_set_keeps_keys. exact Hc.
Qed.

Lemma createAnalysis_consistent (insertAnalysis : InsertAnalysis.t)
    (conversation : Conversation.t) (id : string) (e : entropy) (st : MemStorage.t) :
  keyed_by_id st /\ distinct_keys st /\ analyses_refer_to_conversations st ->
  MemStorage.getConversation id st = Some conversation ->
  InsertAnalysis.conversationId insertAnalysis = Conversation.id conversation ->
  let st' := snd (MemStorage.createAnalysis insertAnalysis e st) in
  keyed_by_id st' /\ distinct_keys st' /\ analyses_refer_to_conversations st'.
Proof.
  intros ([Hkc Hka] & [Hdc Hda] & Href) Hstored Hid. cbn.
  apply assoc_get_In in Hstored.
  split; [split|split; [split|]]; cbn.
  - exact Hkc.
  - intros k a Hin. apply In_assoc_set in Hin. destruct Hin as [Heq | Hin].
    + injection Heq as -> ->. reflexivity.
    + now apply Hka.
  - exact Hdc.
  - now apply assoc_set_NoDup.
  - intros k a Hin. apply In_assoc_set in Hin. destruct Hin as [Heq | Hin].
    + injection Heq as -> ->. cbn. rewrite Hid.
      exists conversation. now rewrite (Hkc _ _ Hstored).
    + exact (Href k a Hin).
Qed.

(** Every store the server goes through is consistent. *)
Lemma reachable_consistent (st : MemStorage.t) :
  reachable st ->
  keyed_by_id st /\ distinct_keys st /\ analyses_refer_to_conversations st.
Proof.
  induction 1 as [|body e st Hreach IH|openai id body e log st Hreach IH].
  - split; [split|split; [split|]]; cbn; try constructor; intros ? ? [].
  - destruct (post_conversations_store body e st) as [-> | [validatedData ->]];
      [exact IH|].
    now apply createConversation_consistent.
  - destruct (post_analyze_store openai id body e st log)
      as [-> | (conversation & insertAnalysis & Hstored & Hid & ->)]; [exact IH|].
    now apply createAnalysis_consistent with conversation id.
Qed.

(** X10. In every store the server goes through, whatever identifiers the
    environment hands over: a conversation found under an identifier has that
    identifier, each identifier is the key of one conversation (the listing
    holds no two with the same one), and the conversation of every analysis
    is stored, so that looking up the identifier an analysis refers to finds
    a conversation with that identifier. *)
Theorem stores_stay_consistent (st : MemStorage.t) :
  reachable st ->
  (forall id c, MemStorage.getConversation id st = Some c -> Conversation.id c = id)
  /\ NoDup (map Conversation.id (assoc_values (MemStorage.conversations st)))
  /\ (forall a,
        In a (MemStorage.getAnalyses st) ->
        exists c,
          MemStorage.getConversation (Analysis.conversationId a) st = Some c
          /\ Conversation.id c = Analysis.conversationId a).
Proof.
  intros Hreach.
  destruct (reachable_consistent st Hreach) as ([Hkc Hka] & [Hdc Hda] & Href).
  split; [|split].
  - intros id c Hget. apply Hkc. now apply assoc_get_In.
  - unfold assoc_values. rewrite map_map.
    rewrite (map_ext_in _ fst); [exact Hdc|].
    intros [k c] Hin. cbn. now apply Hkc.
  - intros a Ha.
    assert (Ha' : In a (assoc_values (MemStorage.analyses st))).
    { eapply Permutation_in; [|exact Ha]. apply Array_sort_Permutation. }
    unfold assoc_values in Ha'. apply in_map_iff in Ha'.
    destruct Ha' as ([k a'] & Heq & Hin). cbn in Heq. subst a'.
    destruct (Href k a Hin) as [c Hc].
    exists c. split.
    + unfold MemStorage.getConversation. now apply In_assoc_get.
    + now apply Hkc.
Qed.

(** X11. In every store the server goes through, the listing of the analyses
    with their conversations leaves no analysis without its conversation:
    each is joined with a conversation whose identifier is the one it refers
    to. *)
Theorem every_listed_analysis_has_its_conversation (st : MemStorage.t) :
  reachable st ->
  exists joined,
    get_analyses st = json (Analyses joined)
    /\ (forall a oc,
          In (a, oc) joined ->
          exists c, oc = Some c /\ Conversation.id c = Analysis.conversationId a).
Proof.
  intros Hreach.
  destruct (reachable_consistent st Hreach) as ([Hkc Hka] & _ & Href).
  unfold get_analyses. cbn [getAnalyses getConversations MemStorage_IStorage bind].
  eexists. split; [reflexivity|].
  intros a oc Hin. apply in_map_iff in Hin. destruct Hin as (a' & Heq & Ha).
  injection Heq as -> <-.
  pose proof (ListingFacts.Array_find_spec
                (fun c => String.eqb (Conversation.id c) (Analysis.conversationId a))
                (MemStorage.getConversations st)) as Hfind.
  destruct (Array_find _ (MemStorage.getConversations st)) as [c|].
  - destruct Hfind as [_ Hid]. exists c. split; [reflexivity | now apply String.eqb_eq].
  - exfalso.
    assert (Ha' : In a (assoc_values (MemStorage.analyses st))).
    { eapply Permutation_in; [|exact Ha]. apply Array_sort_Permutation. }
    unfold assoc_values in Ha'. apply in_map_iff in Ha'.
    destruct Ha' as ([k a'] & Heq & Hin). cbn in Heq. subst a'.
    destruct (Href k a Hin) as [c Hc].
    assert (Hc' : In c (MemStorage.getConversations st)).
    { eapply Permutation_in; [symmetry; apply Array_sort_Permutation|].
      unfold assoc_values. apply in_map_iff. now exists (Analysis.conversationId a, c). }
    specialize (Hfind c Hc'). cbn beta in Hfind.
    rewrite (Hkc _ _ Hc), String.eqb_refl in Hfind. discriminate.
Qed.

End WithRuntime.

(** The store of [Replies.analyzed] is one the server goes through. *)
Lemma analyzed_is_reachable :
  reachable (rt := Replies.runtime) (zm := Sample.messages) (snd (fst Replies.analyzed)).
Proof.
  apply (reach_analyze (rt := Replies.runtime) (zm := Sample.messages)
           Replies.scoring "c-1" VUndef {| uuid := "a-1"; now := 3000 |} [] Sample.one).
  apply (reach_create (rt := Replies.runtime) (zm := Sample.messages)
           (VObj [("content", VStr "A: hi. B: hello."); ("model", VStr "gpt-4o");
                  ("temperature", VStr "0.7"); ("maxTokens", num 500)])
           {| uuid := "c-1"; now := 1000 |} MemStorage.empty).
  apply reach_start.
Qed.

Lemma stores_stay_consistent_witness :
  exists a c,
    In a (MemStorage.getAnalyses (snd (fst Replies.analyzed)))
    /\ MemStorage.getConversation (Analysis.conversationId a) (snd (fst Replies.analyzed))
       = Some c
    /\ Conversation.id c = "c-1".
Proof.
  destruct (stores_stay_consistent (rt := Replies.runtime) (zm := Sample.messages)
              _ analyzed_is_reachable) as (_ & _ & Hrefers).
  eexists.
  destruct (Hrefers _ (or_introl eq_refl)) as (c & Hget & Hid).
  exists c. split; [now left|]. split; [exact Hget | exact Hid].
Defined.

Lemma every_listed_analysis_has_its_conversation_witness :
  exists joined,
    get_analyses (storage := MemStorage_IStorage) (snd (fst Replies.analyzed))
    = json (Analyses joined)
    /\ forall a oc, In (a, oc) joined -> oc <> None.
Proof.
  destruct (every_listed_analysis_has_its_conversation (rt := Replies.runtime)
              (zm := Sample.messages) _ analyzed_is_reachable) as (joined & Hres & Hall).
  exists joined. split; [exact Hres|].
  intros a oc Hin. destruct (Hall a oc Hin) as (c & -> & _). discriminate.
Defined.

End InvariantFacts.


(** ** More on the creation of conversations *)

Module SchemaFacts.

Import JS Routes.

Section AnyStorage.
Context {zm : Zod.Messages} {S : Type} {storage : IStorage S}.

(** X12. The create handler reads six fields of the body and nothing else:
    two bodies that agree on them have the same outcome.  In particular an
    [id] or a [createdAt] sent by the client changes nothing. *)
Theorem create_reads_six_fields (props1 props2 : list (string * value))
    (e : entropy) (st : S) :
  (forall k,
     In k ["title"; "content"; "analysisType"; "model"; "temperature"; "maxTokens"] ->
     Zod.field k props1 = Zod.field k props2) ->
  post_conversations (VObj props1) e st = post_conversations (VObj props2) e st
  /\ (forall id createdAt,
        post_conversations (VObj (("id", id) :: ("createdAt", createdAt) :: props1)) e st
        = post_conversations (VObj props1) e st).
Proof.
  intros Hsame. split.
  - unfold post_conversations, parse, insertConversationSchema.
    rewrite (Hsame "title"), (Hsame "content"), (Hsame "analysisType"),
      (Hsame "model"), (Hsame "temperature"), (Hsame "maxTokens");
      [reflexivity | | | | | |]; simpl; tauto.
  - intros id createdAt. reflexivity.
Qed.

End AnyStorage.

Section InMemory.
Context {zm : Zod.Messages}.

(** A text column that is present must hold a string. *)
Lemma text_must_be_string (props : list (string * value)) (k : string) :
  In k ["analysisType"; "model"; "temperature"] ->
  Zod.field k props <> VUndef ->
  (forall s, Zod.field k props <> VStr s) ->
  exists issues,
    insertConversationSchema (VObj props) = inl issues
    /\ In {| Zod.path := [k]; Zod.code := Zod.invalid_type "string" |} issues.
Proof.
  intros Hk Hdef Hstr.
  assert (Hbad : Zod.optional (Zod.string_ k) (Zod.field k props)
                 = inl [ {| Zod.path := [k]; Zod.code := Zod.invalid_type "string" |} ]).
  { destruct (Zod.field k props) eqn:E; try reflexivity.
    - contradiction.
    - exfalso. now apply (Hstr s). }
  unfold insertConversationSchema.
  destruct Hk as [<- | [<- | [<- | []]]]; rewrite Hbad.
  all: destruct (Zod.optional (Zod.nullable (Zod.string_ "title")) (Zod.field "title" props)),
                (Zod.string_ "content" (Zod.field "content" props)).
  all: try destruct (Zod.optional (Zod.string_ "analysisType")
                       (Zod.field "analysisType" props)).
  all: try destruct (Zod.optional (Zod.string_ "model") (Zod.field "model" props)).
  all: try destruct (Zod.optional (Zod.string_ "temperature")
                       (Zod.field "temperature" props)).
  all: try destruct (Zod.optional (Zod.int32 "maxTokens") (Zod.field "maxTokens" props)).
  all: eexists; (split; [reflexivity|]).
  all: unfold Zod.issues; rewrite ?in_app_iff; simpl; tauto.
Qed.

(** A text column takes any string, and may be left out. *)
Lemma text_is_accepted (k : string) (v : value) :
  v = VUndef \/ (exists s, v = VStr s) ->
  exists o,
    Zod.optional (Zod.string_ k) v = inr o
    /\ (forall s, v = VStr s -> o = Some s).
Proof.
  intros [-> | [s ->]].
  - exists None. split; [reflexivity|]. intros s H. discriminate H.
  - exists (Some s). split; [reflexivity|]. intros s' H. now injection H as ->.
Qed.

(** X13. The analysis type, the model and the temperature of a creation
    request are free text.  In every request whose title, content and
    response-length budget are valid, and in which each of the three is a
    string or is left out, the request is accepted and each of the three
    that is a string is stored as it is, with no enumeration, format or range
    imposed on it, the title, the content and the budget being stored as
    they were validated.  In every request, one of the three that is present
    and is not a string (a temperature sent as a number, for one) makes the
    request rejected with status 400, the message naming the field, and
    nothing is stored. *)
Theorem text_fields_are_free_form (e : entropy) (st : MemStorage.t)
    (props : list (string * value)) :
  (forall title content maxTokens,
     Zod.optional (Zod.nullable (Zod.string_ "title")) (Zod.field "title" props)
     = inr title ->
     Zod.string_ "content" (Zod.field "content" props) = inr content ->
     Zod.optional (Zod.int32 "maxTokens") (Zod.field "maxTokens" props) = inr maxTokens ->
     (forall k, In k ["analysisType"; "model"; "temperature"] ->
                Zod.field k props = VUndef \/ exists s, Zod.field k props = VStr s) ->
     exists conversation st',
       post_conversations (VObj props) e st = (json (AConversation conversation), st')
       /\ (forall s, Zod.field "analysisType" props = VStr s ->
                     Conversation.analysisType conversation = Some s)
       /\ (forall s, Zod.field "model" props = VStr s ->
                     Conversation.model conversation = Some s)
       /\ (forall s, Zod.field "temperature" props = VStr s ->
                     Conversation.temperature conversation = Some s)
       /\ Conversation.title conversation = title
       /\ Conversation.content conversation = content
       /\ Conversation.maxTokens conversation = maxTokens
       /\ MemStorage.getConversation (uuid e) st' = Some conversation)
  /\ (forall k,
        In k ["analysisType"; "model"; "temperature"] ->
        Zod.field k props <> VUndef ->
        (forall s, Zod.field k props <> VStr s) ->
        exists issues,
          In {| Zod.path := [k]; Zod.code := Zod.invalid_type "string" |} issues
          /\ post_conversations (VObj props) e st
             = (fail 400 (Zod.ZodError_message issues), st)).
Proof.
  split.
  - intros title content maxTokens H1 H2 H6 Htext.
    destruct (text_is_accepted "analysisType" _ (Htext "analysisType" (or_introl eq_refl)))
      as (oa & H3 & Ha).
    destruct (text_is_accepted "model" _
                (Htext "model" (or_intror (or_introl eq_refl))))
      as (om & H4 & Hm).
    destruct (text_is_accepted "temperature" _
                (Htext "temperature" (or_intror (or_intror (or_introl eq_refl)))))
      as (ot & H5 & Ht).
    pose proof (CreateFacts.schema_passes props _ _ _ _ _ _ H1 H2 H3 H4 H5 H6) as Hvalid.
    destruct (CreateFacts.valid_request_is_stored _ e st _ Hvalid) as [Hres Hget].
    eexists. eexists. split; [exact Hres|].
    split; [exact Ha|]. split; [exact Hm|]. split; [exact Ht|].
    repeat (split; [reflexivity|]). exact Hget.
  - intros k Hk Hdef Hstr.
    destruct (text_must_be_string props k Hk Hdef Hstr) as (issues & Hschema & Hin).
    exists issues. split; [exact Hin|].
    unfold post_conversations, parse. now rewrite Hschema.
Qed.

End InMemory.

Lemma create_reads_six_fields_witness :
  post_conversations (zm := Sample.messages) (storage := MemStorage_IStorage)
    (VObj [("content", VStr "A: hi. B: hello."); ("apiKey", VStr "sk-1")])
    {| uuid := "c-1"; now := 1000 |} MemStorage.empty
  = post_conversations (zm := Sample.messages) (storage := MemStorage_IStorage)
      (VObj [("content", VStr "A: hi. B: hello.")])
      {| uuid := "c-1"; now := 1000 |} MemStorage.empty.
Proof.
  apply (create_reads_six_fields (zm := Sample.messages) (storage := MemStorage_IStorage)).
  intros k [<- | [<- | [<- | [<- | [<- | [<- | []]]]]]]; reflexivity.
Defined.

Lemma text_fields_are_free_form_witness :
  exists conversation st',
    post_conversations (zm := Sample.messages) (storage := MemStorage_IStorage)
      (VObj [("title", VNull); ("content", VStr "A: hi. B: hello.");
             ("analysisType", VStr "Anything"); ("temperature", VStr "hot");
             ("maxTokens", num 250)])
      {| uuid := "c-1"; now := 1000 |} MemStorage.empty
    = (json (AConversation conversation), st')
    /\ Conversation.analysisType conversation = Some "Anything"
    /\ Conversation.temperature conversation = Some "hot"
    /\ Conversation.maxTokens conversation = Some (Fin 250).
Proof.
  destruct (proj1 (text_fields_are_free_form (zm := Sample.messages)
                     {| uuid := "c-1"; now := 1000 |} MemStorage.empty
                     [("title", VNull); ("content", VStr "A: hi. B: hello.");
                      ("analysisType", VStr "Anything"); ("temperature", VStr "hot");
                      ("maxTokens", num 250)])
              (Some None) "A: hi. B: hello." (Some (Fin 250)) eq_refl eq_refl eq_refl)
    as (conversation & st' & Hres & Ha & _ & Ht & _ & _ & Hmax & _).
  - intros k [<- | [<- | [<- | []]]].
    + right. now exists "Anything".
    + now left.
    + right. now exists "hot".
  - exists conversation, st'. split; [exact Hres|].
    split; [exact (Ha "Anything" eq_refl)|].
    split; [exact (Ht "hot" eq_refl) | exact Hmax].
Defined.

End SchemaFacts.

(** ** The users of the in-memory store *)

Module UserFacts.

Import MemStorage.

(** X14. Creating a user under a new identifier stores the name and the
    password given, under the identifier drawn; the user is what its
    identifier finds, and what its name finds when no earlier user has that
    name.  The users stored before are found as before, by identifier and by
    name: a name that is taken is not refused, and still finds the earlier
    user.  Conversations and analyses are left as they were. *)
Theorem createUser_finds_the_user (insertUser : InsertUser.t) (e : entropy)
    (st : MemStorage.t) :
  getUser (uuid e) st = None ->
  let user := fst (createUser insertUser e st) in
  let st' := snd (createUser insertUser e st) in
  User.id user = uuid e
  /\ User.username user = InsertUser.username insertUser
  /\ User.password user = InsertUser.password insertUser
  /\ getUser (uuid e) st' = Some user
  /\ (forall id u, getUser id st = Some u -> getUser id st' = Some u)
  /\ (forall name u, getUserByUsername name st = Some u ->
                     getUserByUsername name st' = Some u)
  /\ (getUserByUsername (InsertUser.username insertUser) st = None ->
      getUserByUsername (InsertUser.username insertUser) st' = Some user)
  /\ conversations st' = conversations st
  /\ analyses st' = analyses st.
Proof.
  intros Hfresh. unfold getUser, getUserByUsername, createUser in *. cbn.
  repeat (split; [reflexivity|]).
  split; [apply assoc_get_set_same|].
  split; [intros id u Hu; eapply assoc_get_set_fresh; eassumption|].
  split; [|split; [|split; reflexivity]].
  - intros name u Hu. rewrite (assoc_set_fresh _ _ _ Hfresh).
    unfold assoc_values, Array_find in *. rewrite map_app. now apply find_app_l.
  - intros Hnone. apply RecommendationsFacts.find_after_set; [exact Hnone|].
    cbn. apply String.eqb_refl.
Qed.

Lemma createUser_finds_the_user_witness :
  getUser "u-2" (snd (createUser {| InsertUser.username := "ada"; InsertUser.password := "x" |}
                        {| uuid := "u-1"; now := 1 |} empty)) = None
  /\ option_map User.id
       (getUserByUsername "ada"
          (snd (createUser {| InsertUser.username := "ada"; InsertUser.password := "y" |}
                  {| uuid := "u-2"; now := 2 |}
                  (snd (createUser
                          {| InsertUser.username := "ada"; InsertUser.password := "x" |}
                          {| uuid := "u-1"; now := 1 |} empty)))))
     = Some "u-1".
Proof.
  split; [reflexivity|].
  pose proof (createUser_finds_the_user
                {| InsertUser.username := "ada"; InsertUser.password := "y" |}
                {| uuid := "u-2"; now := 2 |}
                (snd (createUser
                        {| InsertUser.username := "ada"; InsertUser.password := "x" |}
                        {| uuid := "u-1"; now := 1 |} empty)) eq_refl) as H.
  cbv zeta in H. destruct H as (_ & _ & _ & _ & _ & Hname & _).
  rewrite (Hname "ada" _ eq_refl). reflexivity.
Defined.

End UserFacts.


(** ** Nothing is ever removed *)

Module PersistenceFacts.

Import JS OpenAI Routes.

Lemma assoc_set_keeps_lookup {V : Type} (k k' : string) (v : V) (m : list (string * V)) :
  assoc_get k' m <> None -> assoc_get k' (assoc_set k v m) <> None.
Proof.
  intros H. destruct (String.eqb_spec k k') as [->|Hne].
  - rewrite assoc_get_set_same. discriminate.
  - now rewrite assoc_get_set_other.
Qed.

Lemma assoc_set_length {V : Type} (k : string) (v : V) (m : list (string * V)) :
  (length m <= length (assoc_set k v m) <= S (length m))%nat.
Proof.
  induction m as [|[k' v'] m IH]; simpl; [lia|].
  destruct (String.eqb k k'); simpl; lia.
Qed.

Section WithRuntime.
Context {rt : Runtime} {zm : Zod.Messages}.

(** X15. The two writing handlers only add to the in-memory store, whatever
    the request, the identifier drawn and the answer of the remote model.
    Creating a conversation leaves the analyses and the users as they were,
    keeps every identifier under which a conversation is stored, and makes
    the conversations at most one more.  Analyzing leaves the conversations
    and the users as they were (a failed analysis takes no conversation
    away), keeps every stored analysis key, and makes the analyses at most
    one more. *)
Theorem handlers_only_add (openai : provider) (id : string) (body : value)
    (e : entropy) (log : calls) (st : MemStorage.t) :
  (let st' := snd (post_conversations body e st) in
   MemStorage.analyses st' = MemStorage.analyses st
   /\ MemStorage.users st' = MemStorage.users st
   /\ (forall k, MemStorage.getConversation k st <> None ->
                 MemStorage.getConversation k st' <> None)
   /\ (length (MemStorage.conversations st) <= length (MemStorage.conversations st')
       <= S (length (MemStorage.conversations st)))%nat)
  /\ (let st' := snd (fst (post_analyze openai id body e st log)) in
      MemStorage.conversations st' = MemStorage.conversations st
      /\ MemStorage.users st' = MemStorage.users st
      /\ (forall k, assoc_get k (MemStorage.analyses st) <> None ->
                    assoc_get k (MemStorage.analyses st') <> None)
      /\ (length (MemStorage.analyses st) <= length (MemStorage.analyses st')
          <= S (length (MemStorage.analyses st)))%nat).
Proof.
  split; cbv zeta.
  - destruct (InvariantFacts.post_conversations_store body e st)
      as [-> | [validatedData ->]].
    + repeat split; auto; lia.
    + cbn. repeat split.
      * intros k. unfold MemStorage.getConversation. apply assoc_set_keeps_lookup.
      * apply assoc_set_length.
      * apply assoc_set_length.
  - destruct (InvariantFacts.post_analyze_store openai id body e st log)
      as [-> | (conversation & insertAnalysis & _ & _ & ->)].
    + repeat split; auto; lia.
    + cbn. repeat split.
      * intros k. apply assoc_set_keeps_lookup.
      * apply assoc_set_length.
      * apply assoc_set_length.
Qed.

End WithRuntime.

Lemma handlers_only_add_witness :
  MemStorage.getConversation "c-1" Sample.one <> None
  /\ MemStorage.getConversation "c-1"
       (snd (post_conversations (zm := Sample.messages) (storage := MemStorage_IStorage)
               (VObj [("content", VStr "again")]) {| uuid := "c-1"; now := 5000 |}
               Sample.one)) <> None.
Proof.
  assert (H : MemStorage.getConversation "c-1" Sample.one <> None) by discriminate.
  split; [exact H|].
  destruct (handlers_only_add (rt := Sample.runtime) (zm := Sample.messages)
              Sample.advising "c-1" (VObj [("content", VStr "again")])
              {| uuid := "c-1"; now := 5000 |} [] Sample.one) as [(_ & _ & Hkept & _) _].
  exact (Hkept "c-1" H).
Defined.

End PersistenceFacts.


(** ** Rejections by the storage *)

Module FaultFacts.

Import JS OpenAI Routes.

Section AnyStorage.
Context {rt : Runtime} {S : Type} {storage : IStorage S}.

(** X16. When the storage rejects an operation, the handlers that read, and
    the analyze handler, answer 500 with the message of the rejection.  The
    analyze handler does so without calling the remote model when it is the
    lookup of the conversation that is rejected; when it is the recording of
    the analysis, the remote model has been called and the analysis is in
    neither the store nor the answer. *)
Theorem storage_rejections_are_500 (openai : provider) (id : string) (body : value)
    (e : entropy) (st : S) (log : calls) (message : string) :
  (getConversations st = Throws message -> get_conversations st = fail 500 message)
  /\ (getConversation id st = Throws message ->
      get_conversation id st = fail 500 message
      /\ post_analyze openai id body e st log = (fail 500 message, st, log))
  /\ (getAnalysis id st = Throws message -> get_analysis id st = fail 500 message)
  /\ (getAnalyses st = Throws message -> get_analyses st = fail 500 message)
  /\ (forall analyses,
        getAnalyses st = Ok analyses -> getConversations st = Throws message ->
        get_analyses st = fail 500 message)
  /\ (forall conversation analysisResult insertAnalysis,
        getConversation id st = Ok (Some conversation) ->
        fst (analyzeConversation openai (analysisRequest_of conversation) log)
        = Ok analysisResult ->
        insertAnalysis_of conversation analysisResult = Ok insertAnalysis ->
        createAnalysis insertAnalysis e st = Throws message ->
        post_analyze openai id body e st log
        = (fail 500 message, st, (log ++ [analysisRequest_of conversation])%list)).
Proof.
  split; [|split; [|split; [|split; [|split]]]].
  - intros H. unfold get_conversations. now rewrite H.
  - intros H. unfold get_conversation, post_analyze. now rewrite H.
  - intros H. unfold get_analysis. now rewrite H.
  - intros H. unfold get_analyses. now rewrite H.
  - intros analyses Ha Hc. unfold get_analyses. now rewrite Ha, Hc.
  - intros conversation analysisResult insertAnalysis Hstored Hresult Hinsert Hfault.
    pose proof (RoutesFacts.analyzeConversation_calls openai
                  (analysisRequest_of conversation) log) as Hcalls.
    unfold post_analyze. rewrite Hstored.
    destruct (analyzeConversation openai (analysisRequest_of conversation) log)
      as [analyzed log'].
    cbn [fst snd] in Hresult, Hcalls. subst analyzed log'.
    cbn [bind]. rewrite Hinsert. cbn [bind]. rewrite Hfault. reflexivity.
Qed.

End AnyStorage.

Lemma storage_rejections_are_500_witness :
  getConversation (IStorage := Sample.Unreachable) "c-1" tt = Throws Sample.unreachable
  /\ post_analyze (rt := Sample.runtime) (storage := Sample.Unreachable)
       Sample.advising "c-1" VUndef {| uuid := "a-1"; now := 3000 |} tt []
     = (fail 500 Sample.unreachable, tt, []).
Proof.
  split; [reflexivity|].
  destruct (storage_rejections_are_500 (rt := Sample.runtime)
              (storage := Sample.Unreachable) Sample.advising "c-1" VUndef
              {| uuid := "a-1"; now := 3000 |} tt [] Sample.unreachable)
    as (_ & H & _).
  exact (proj2 (H eq_refl)).
Defined.

End FaultFacts.



(** ** Recommendations are stored as text, and read as stored *)

Module StoredTextFacts.

Import JS OpenAI Routes AnalysisFacts.

Section WithRuntime.
Context {rt : Runtime} {zm : Zod.Messages}.





End WithRuntime.


End StoredTextFacts.
